(** * ERA5-To-SHETRAN / ERA5-Land-To-SHETRAN: the time axis and the pipeline

    A shallow embedding of the two conversion scripts
    [src/ERA5-To-SHETRAN.py] and [src/ERA5-Land-To-SHETRAN.py].

    - Python exceptions are an inductive type, a computation that may raise
      is a [Result].
    - A pandas [Timestamp] is its [value]: nanoseconds since 1970-01-01, as
      pandas stores it.  Date strings are parsed to such values through the
      proleptic Gregorian calendar.
    - [pd.date_range(start, end, freq='H')] is the arithmetic progression of
      values from [start] to [end]; the one-column [DataFrame] built from it
      has the default [RangeIndex], and [.loc] looks a label up in it.
    - The module-level statements of a script are one computation in a monad
      of state and exceptions; the state records whether the input file is
      open and the trace of what touched it. *)

From Stdlib Require Import ZArith QArith Ascii String.
From stdpp Require Import base option list numbers strings gmap sorting.

Open Scope Z_scope.

(** ** Python exceptions *)

Inductive PyErr : Type :=
  | KeyError
  | IndexError
  | ValueError
  | RuntimeError
  | OSError.

#[global] Instance PyErr_eq_dec : EqDecision PyErr.
Proof. solve_decision. Defined.

(** [KeyError] and [IndexError] are the two subclasses of [LookupError]. *)
Definition is_LookupError (e : PyErr) : bool :=
  match e with
  | KeyError | IndexError => true
  | _ => false
  end.

Inductive Result (A : Type) : Type :=
  | OK (a : A)
  | Raise (e : PyErr).
Arguments OK {A} a.
Arguments Raise {A} e.

#[global] Instance Result_ret : MRet Result := fun _ a => OK a.
#[global] Instance Result_bind : MBind Result := fun _ _ f r =>
  match r with
  | OK a => f a
  | Raise e => Raise e
  end.

Definition raises {A} (r : Result A) : Prop :=
  match r with
  | OK _ => False
  | Raise _ => True
  end.

Definition raises_LookupError {A} (r : Result A) : Prop :=
  match r with
  | OK _ => False
  | Raise e => is_LookupError e = true
  end.

(** ** Python sequences *)

(** [l[i]] on a Python list: a negative index counts from the end, an index
    out of range raises [IndexError]. *)
Definition py_getitem {A} (l : list A) (i : Z) : Result A :=
  let n := Z.of_nat (length l) in
  let j := if decide (i < 0) then i + n else i in
  if decide (0 <= j < n) then
    match l !! Z.to_nat j with
    | Some x => OK x
    | None => Raise IndexError
    end
  else Raise IndexError.

(** ** The civil calendar behind [Timestamp] *)

Module Calendar.

Definition is_leapyear (y : Z) : bool :=
  bool_decide (y mod 4 = 0) &&
  (negb (bool_decide (y mod 100 = 0)) || bool_decide (y mod 400 = 0)).

Definition days_per_month (y m : Z) : Z :=
  match m with
  | 1 => 31
  | 2 => if is_leapyear y then 29 else 28
  | 3 => 31
  | 4 => 30
  | 5 => 31
  | 6 => 30
  | 7 => 31
  | 8 => 31
  | 9 => 30
  | 10 => 31
  | 11 => 30
  | 12 => 31
  | _ => 0
  end.

(** Leap days in the years 1 .. y-1. *)
Definition leap_days_before (y : Z) : Z :=
  (y - 1) / 4 - (y - 1) / 100 + (y - 1) / 400.

(** Days from 1970-01-01 to the first of January of year [y]. *)
Definition days_before_year (y : Z) : Z :=
  365 * (y - 1970) + (leap_days_before y - leap_days_before 1970).

(** Days from the first of January to the first of month [m]. *)
Definition days_before_month (y m : Z) : Z :=
  foldr (fun k acc => days_per_month y k + acc) 0 (seqZ 1 (m - 1)).

(** Days from 1970-01-01 to the date [y]-[m]-[d]. *)
Definition days_from_civil (y m d : Z) : Z :=
  days_before_year y + days_before_month y m + (d - 1).

(** A calendar date, stepped a day at a time: the reference the closed
    form above is tested against. *)
Record Date : Type := mkDate { year : Z; month : Z; day : Z }.

Definition next_day (c : Date) : Date :=
  if decide (day c < days_per_month (year c) (month c)) then
    mkDate (year c) (month c) (day c + 1)
  else if decide (month c < 12) then
    mkDate (year c) (month c + 1) 1
  else
    mkDate (year c + 1) 1 1.

Definition Date_days (c : Date) : Z :=
  days_from_civil (year c) (month c) (day c).

(** [true] when the closed form agrees with day-by-day stepping on the [n]
    days that follow [c]. *)
Fixpoint agree_from (c : Date) (n : nat) : bool :=
  match n with
  | O => true
  | S k =>
      bool_decide (Date_days (next_day c) = Date_days c + 1)
      && agree_from (next_day c) k
  end.

End Calendar.

(** ** pandas: [Timestamp], [date_range], [DataFrame] *)

Module pd.

(** Nanoseconds since 1970-01-01 00:00:00. *)
Record Timestamp : Type := mkTimestamp { value : Z }.

#[global] Instance Timestamp_eq_dec : EqDecision Timestamp.
Proof. solve_decision. Defined.

Definition NANOS_PER_SECOND : Z := 1000000000.
Definition NANOS_PER_HOUR : Z := 3600 * NANOS_PER_SECOND.

(** The frequency string ['H']. *)
Definition H : Z := NANOS_PER_HOUR.

(** [ts + pd.Timedelta(hours=h)]. *)
Definition add_hours (ts : Timestamp) (h : Z) : Timestamp :=
  mkTimestamp (value ts + h * NANOS_PER_HOUR).

Definition Timestamp_of_civil (y m d hh mi ss : Z) : Timestamp :=
  mkTimestamp
    ((((Calendar.days_from_civil y m d * 24 + hh) * 60 + mi) * 60 + ss)
     * NANOS_PER_SECOND).

Definition digit (c : ascii) : option Z :=
  let n := Z.of_N (N_of_ascii c) - 48 in
  if decide (0 <= n <= 9) then Some n else None.

Definition digits2 (a b : ascii) : option Z :=
  x ← digit a; y ← digit b; Some (10 * x + y).

Definition digits4 (a b c d : ascii) : option Z :=
  x ← digits2 a b; y ← digits2 c d; Some (100 * x + y).

Definition sep (expected c : ascii) : option unit :=
  if decide (c = expected) then Some () else None.

Definition check (b : bool) : option unit :=
  if b then Some () else None.

(** Parsing of the one layout the scripts write their dates in,
    ['YYYY-MM-DD HH:MM:SS']. *)
Definition to_datetime (s : string) : option Timestamp :=
  match String.list_ascii_of_string s with
  | [y1; y2; y3; y4; c1; m1; m2; c2; d1; d2; c3;
     h1; h2; c4; n1; n2; c5; s1; s2] =>
      y ← digits4 y1 y2 y3 y4;
      _ ← sep "-"%char c1;
      m ← digits2 m1 m2;
      _ ← sep "-"%char c2;
      d ← digits2 d1 d2;
      _ ← sep " "%char c3;
      hh ← digits2 h1 h2;
      _ ← sep ":"%char c4;
      mi ← digits2 n1 n2;
      _ ← sep ":"%char c5;
      ss ← digits2 s1 s2;
      _ ← check (bool_decide (1 <= m <= 12));
      _ ← check (bool_decide (1 <= d <= Calendar.days_per_month y m));
      _ ← check (bool_decide (hh < 24 /\ mi < 60 /\ ss < 60));
      Some (Timestamp_of_civil y m d hh mi ss)
  | _ => None
  end.

(** Not-a-time, what an unparsable date is coerced to. *)
Definition NaT : Timestamp := mkTimestamp (- 2 ^ 63).

(** A date literal of the source. *)
Definition Timestamp_of_string (s : string) : Timestamp :=
  default NaT (to_datetime s).

(** [np.arange(b, e, stride)] for a positive stride: [b], [b + stride], ...
    below [e]. *)
Definition arange (b e stride : Z) : list Z :=
  (fun i => b + i * stride) <$> seqZ 0 ((e - b + stride - 1) / stride).

(** [pd.date_range(start, end, freq)] for a fixed frequency of [stride]
    nanoseconds: the values from [start], a stride apart, up to and
    including [end]. *)
Definition date_range (start end_ : Timestamp) (stride : Z) : list Timestamp :=
  let b := value start in
  let e := b + (value end_ - b) / stride * stride + stride / 2 + 1 in
  mkTimestamp <$> arange b e stride.

(** The label of the last row of [date_range start end_ stride]. *)
Definition last_step (start end_ : Timestamp) (stride : Z) : Z :=
  (value end_ - value start) / stride.

(** A one-column frame under the default [RangeIndex]: row [i] has label
    [i]. *)
Record DataFrame : Type := mkDataFrame { column : list Timestamp }.

Definition len (df : DataFrame) : Z := Z.of_nat (length (column df)).

(** [df.index], the labels 0 .. len-1. *)
Definition index (df : DataFrame) : list Z := seqZ 0 (len df).

(** [label in df.index]. *)
Definition has_row (df : DataFrame) (label : Z) : Prop :=
  0 <= label < len df.

#[global] Instance has_row_dec df label : Decision (has_row df label).
Proof. unfold has_row. apply _. Defined.

(** [df.loc[label][0]]: the row labelled [label], then its only column.
    A label that is not in the index raises [KeyError]. *)
Definition loc (df : DataFrame) (label : Z) : Result Timestamp :=
  if decide (has_row df label) then
    match column df !! Z.to_nat label with
    | Some ts => OK ts
    | None => Raise KeyError
    end
  else Raise KeyError.

(** [df['dateTime'] == b], the boolean mask. *)
Definition eq_mask (df : DataFrame) (b : Timestamp) : list bool :=
  (fun ts => bool_decide (ts = b)) <$> column df.

(** [index[mask]]: the labels at which the mask holds, in order. *)
Fixpoint boolean_index (labels : list Z) (mask : list bool) : list Z :=
  match labels, mask with
  | l :: ls, true :: ms => l :: boolean_index ls ms
  | _ :: ls, false :: ms => boolean_index ls ms
  | _, _ => []
  end.

End pd.

(** ** netCDF4: the input file *)

Module netCDF4.

(** A gridded variable, indexed (time-step, latitude, longitude).  The
    values stand as rationals; nothing below depends on what they are. *)
Definition Grid : Type := list (list (list Q)).

(** What the scripts read of an ERA5 file: the ['time'] variable (hours
    since 1900-01-01 00:00:00.0), the two coordinate variables and the
    gridded variables by name. *)
Record Dataset : Type := mkDataset {
  time : list Z;
  latitude : list Q;
  longitude : list Q;
  variables : gmap string Grid
}.

End netCDF4.

Import pd netCDF4.

(** ** User-defined variables and the statements on the time axis *)

Definition ExtIn : string := ".nc".


(** The start of the reference calendar: ERA units are hours since
    1900-01-01 00:00:00.0. *)
Definition epoch : Timestamp := Timestamp_of_string "1900-01-01 00:00:00".

(** [pd.DataFrame(pd.date_range(start='1900-01-01 00:00:00', end=end_,
    freq='H'))]. *)
Definition build_ERA5DateIndex (end_ : string) : DataFrame :=
  mkDataFrame (date_range epoch (Timestamp_of_string end_) H).

(** The body of the loop over the time variable, on the value [t] read from
    it: [TimeIndex.append(ERA5DateIndex.loc[t][0])]. *)
Definition TimeIndex_append (ERA5DateIndex : DataFrame)
    (TimeIndex : list Timestamp) (t : Z) : Result (list Timestamp) :=
  ts ← loc ERA5DateIndex t;
  mret (TimeIndex ++ [ts]).

(** The loop, from the accumulator [TimeIndex] on: the first failing lookup
    ends it. *)
Fixpoint TimeIndex_loop (ERA5DateIndex : DataFrame)
    (TimeIndex : list Timestamp) (times : list Z) : Result (list Timestamp) :=
  match times with
  | [] => mret TimeIndex
  | t :: rest =>
      TimeIndex' ← TimeIndex_append ERA5DateIndex TimeIndex t;
      TimeIndex_loop ERA5DateIndex TimeIndex' rest
  end.

(** [TimeIndex = []] and the loop over the whole time variable. *)
Definition resolve_TimeIndex (ERA5DateIndex : DataFrame) (times : list Z)
    : Result (list Timestamp) :=
  TimeIndex_loop ERA5DateIndex [] times.

(** [pd.DataFrame(data=TimeIndex, columns=['dateTime'])]. *)
Definition build_DfTimeIndex (TimeIndex : list Timestamp) : DataFrame :=
  mkDataFrame TimeIndex.

(** [DfTimeIndex.index[DfTimeIndex['dateTime']==b].tolist()[0]]. *)
Definition boundary_index (DfTimeIndex : DataFrame) (b : Timestamp) : Result Z :=
  py_getitem (boolean_index (index DfTimeIndex) (eq_mask DfTimeIndex b)) 0.

(** The resolved sequence [t0, t0+1h, t0+2h, ...] of [n] hourly
    timestamps. *)
Definition hourly (t0 : Timestamp) (n : Z) : list Timestamp :=
  add_hours t0 <$> seqZ 0 n.

(** ** The scripts as computations over the input file *)

(** What happens to the input file, in order. *)
Inductive Event : Type :=
  | EvOpen                (* Dataset(...) *)
  | EvVariables           (* ERA5.variables, ERA5.variables.keys() *)
  | EvReadTime            (* ERA5.variables['time'], its length or an entry *)
  | EvPlot                (* NetCDFPlotter(Data = ERA5, ...) *)
  | EvConvert             (* NetCDFToSHETRAN(Data = ERA5, ...) *)
  | EvClose.              (* ERA5.close() *)

#[global] Instance Event_eq_dec : EqDecision Event.
Proof. solve_decision. Defined.

Record World : Type := mkWorld {
  is_open : bool;
  trace : list Event
}.

Definition World0 : World := mkWorld false [].

(** A statement: it runs in a world, leaves a world, and returns or
    raises.  After a raise nothing more runs. *)
Definition Script (A : Type) : Type := World -> Result A * World.

#[global] Instance Script_ret : MRet Script := fun _ a w => (OK a, w).
#[global] Instance Script_bind : MBind Script := fun _ _ f m w =>
  match m w with
  | (OK a, w') => f a w'
  | (Raise e, w') => (Raise e, w')
  end.

Definition lift {A} (r : Result A) : Script A := fun w => (r, w).

Definition log (ev : Event) : Script unit :=
  fun w => (OK (), mkWorld (is_open w) (trace w ++ [ev])).

(** A use of the file object: recorded, and an error on a closed file. *)
Definition check_open : Script unit :=
  fun w => if is_open w then (OK (), w) else (Raise RuntimeError, w).

Definition access (ev : Event) : Script unit :=
  _ ← log ev;
  check_open.

Definition set_closed : Script unit :=
  fun w => (OK (), mkWorld false (trace w)).

(** The collaborators that are not part of the scripts: the file system
    behind [Dataset(path)] and the two functions imported from
    [CustomFunctionsToSHETRAN]. *)
Record Env : Type := mkEnv {
  env_open : string -> Result Dataset;
  env_NetCDFPlotter : Dataset -> Result unit;
  env_NetCDFToSHETRAN : Dataset -> Result unit
}.

(** The two scripts differ in the end of the reference calendar, in where
    the boundary timestamps come from and in their paths. *)
Record Variant : Type := mkVariant {
  DirectoryIn : string;
  FileNameIn : string;
  calendar_end : string;
  boundary_times : list Timestamp -> Result (Timestamp * Timestamp)
}.

(** The globals a run leaves behind. *)
Record Globals : Type := mkGlobals {
  g_TimeIndex : list Timestamp;
  g_StartIdx : Z;
  g_EndIdx : Z
}.

Section Pipeline.

Context (env : Env) (v : Variant).

(** [ERA5 = Dataset(DirectoryIn + FileNameIn + ExtIn)]. *)
Definition Dataset_open : Script Dataset :=
  fun w =>
    match env_open env (DirectoryIn v +:+ FileNameIn v +:+ ExtIn) with
    | OK d => (OK d, mkWorld true (trace w ++ [EvOpen]))
    | Raise e => (Raise e, w)
    end.

(** [ERA5.close()]. *)
Definition Dataset_close : Script unit :=
  _ ← access EvClose;
  set_closed.

(** One turn of the [for Time in range(...)] loop: read
    [ERA5.variables['time'][Time]], then append. *)
Definition loop_turn (ERA5DateIndex : DataFrame) (ERA5 : Dataset)
    (TimeIndex : list Timestamp) (Time : Z) : Script (list Timestamp) :=
  _ ← access EvReadTime;
  t ← lift (py_getitem (time ERA5) Time);
  lift (TimeIndex_append ERA5DateIndex TimeIndex t).

Fixpoint for_range (ERA5DateIndex : DataFrame) (ERA5 : Dataset)
    (TimeIndex : list Timestamp) (range : list Z) : Script (list Timestamp) :=
  match range with
  | [] => mret TimeIndex
  | Time :: rest =>
      TimeIndex' ← loop_turn ERA5DateIndex ERA5 TimeIndex Time;
      for_range ERA5DateIndex ERA5 TimeIndex' rest
  end.

Definition NetCDFPlotter (ERA5 : Dataset) : Script unit :=
  _ ← access EvPlot;
  lift (env_NetCDFPlotter env ERA5).

Definition NetCDFToSHETRAN (ERA5 : Dataset) : Script unit :=
  _ ← access EvConvert;
  lift (env_NetCDFToSHETRAN env ERA5).

(** The statements of a script, top to bottom. *)
Definition main : Script Globals :=
  ERA5 ← Dataset_open;
  _ ← access EvVariables;
  _ ← access EvVariables;
  let ERA5DateIndex := build_ERA5DateIndex (calendar_end v) in
  _ ← access EvReadTime;
  TimeIndex ← for_range ERA5DateIndex ERA5 []
                (seqZ 0 (Z.of_nat (length (time ERA5))));
  let DfTimeIndex := build_DfTimeIndex TimeIndex in
  bounds ← lift (boundary_times v TimeIndex);
  StartIdx ← lift (boundary_index DfTimeIndex (fst bounds));
  EndIdx ← lift (boundary_index DfTimeIndex (snd bounds));
  _ ← NetCDFPlotter ERA5;
  _ ← NetCDFToSHETRAN ERA5;
  _ ← Dataset_close;
  mret (mkGlobals TimeIndex StartIdx EndIdx).

Definition run : Result Globals * World := main World0.

End Pipeline.

(** [src/ERA5-To-SHETRAN.py]: calendar to 2022, boundaries written out. *)
Module ERA5_To_SHETRAN.

Definition StartTime : string := "2000-01-01 00:00:00".
Definition EndTime : string := "2010-01-01 00:00:00".

Definition variant : Variant :=
  mkVariant
    "C:/Users/DH/OneDrive - Heriot-Watt University/Documents/HydrosystemsModellerRA/HydroModelling/HydroInputData/PeTimeSeries/ERA5-Land/"
    "evaporation_Essequibo_years2000-2021_hours00"
    "2022-01-01 00:00:00"
    (fun _ => OK (Timestamp_of_string StartTime, Timestamp_of_string EndTime)).

Definition ERA5DateIndex : DataFrame :=
  build_ERA5DateIndex (calendar_end variant).

End ERA5_To_SHETRAN.

(** [src/ERA5-Land-To-SHETRAN.py]: calendar to 2030, boundaries taken from
    the resolved sequence, [TimeIndex[0]] and [TimeIndex[-1]]. *)
Module ERA5_Land_To_SHETRAN.

Definition variant : Variant :=
  mkVariant "" "" "2030-01-01 00:00:00"
    (fun TimeIndex =>
       StartTime ← py_getitem TimeIndex 0;
       EndTime ← py_getitem TimeIndex (-1);
       mret (StartTime, EndTime)).

Definition ERA5DateIndex : DataFrame :=
  build_ERA5DateIndex (calendar_end variant).

End ERA5_Land_To_SHETRAN.

(** ** The runs in closed form *)

(** The statements between opening the file and the plot, without the
    world: the resolved sequence and the two boundary indices. *)
Definition time_axis (v : Variant) (ERA5 : Dataset) : Result Globals :=
  let ERA5DateIndex := build_ERA5DateIndex (calendar_end v) in
  TimeIndex ← resolve_TimeIndex ERA5DateIndex (time ERA5);
  let DfTimeIndex := build_DfTimeIndex TimeIndex in
  bounds ← boundary_times v TimeIndex;
  StartIdx ← boundary_index DfTimeIndex (fst bounds);
  EndIdx ← boundary_index DfTimeIndex (snd bounds);
  mret (mkGlobals TimeIndex StartIdx EndIdx).

(** The trace up to the end of the loop, after [k] turns. *)
Definition time_axis_events (k : nat) : list Event :=
  [EvOpen; EvVariables; EvVariables; EvReadTime] ++ replicate k EvReadTime.

(** The number of turns the loop takes on the time-steps [times]: all of
    them, or those up to and including the first one without a row. *)
Fixpoint turns (ERA5DateIndex : DataFrame) (times : list Z) : nat :=
  match times with
  | [] => 0
  | t :: rest =>
      if decide (has_row ERA5DateIndex t) then S (turns ERA5DateIndex rest)
      else 1
  end.

(** How a run on the file [ERA5] ends, by the first statement that raises. *)
Definition outcome (env : Env) (v : Variant) (ERA5 : Dataset) (k : nat)
    : Result Globals * World :=
  match time_axis v ERA5 with
  | Raise e => (Raise e, mkWorld true (time_axis_events k))
  | OK g =>
      match env_NetCDFPlotter env ERA5 with
      | Raise e => (Raise e, mkWorld true (time_axis_events k ++ [EvPlot]))
      | OK _ =>
          match env_NetCDFToSHETRAN env ERA5 with
          | Raise e =>
              (Raise e, mkWorld true (time_axis_events k ++ [EvPlot; EvConvert]))
          | OK _ =>
              (OK g, mkWorld false
                       (time_axis_events k ++ [EvPlot; EvConvert; EvClose]))
          end
      end
  end.

(** The plotter was called and raised. *)
Definition plotter_fails (env : Env) (v : Variant) : Prop :=
  EvPlot ∈ trace (run env v).2 /\
  exists ERA5 e,
    env_open env (DirectoryIn v +:+ FileNameIn v +:+ ExtIn) = OK ERA5 /\
    env_NetCDFPlotter env ERA5 = Raise e.

(** The conversion stage was executed. *)
Definition conversion_executes (env : Env) (v : Variant) : Prop :=
  EvConvert ∈ trace (run env v).2.

(** The two stages run at most once each, the plotter first, and nothing
    but the release of the file follows them. *)
Definition stages_in_order (tr : list Event) : Prop :=
  exists pre post,
    tr = pre ++ post /\
    (EvPlot ∉ pre) /\ (EvConvert ∉ pre) /\ (EvClose ∉ pre) /\
    (post = [] \/ post = [EvPlot] \/ post = [EvPlot; EvConvert] \/
     post = [EvPlot; EvConvert; EvClose]).

(** The life of the file object: opened once, used while open, released
    once, and not touched again. *)
Inductive FileState : Type :=
  | NotOpened
  | Opened
  | Released.

Definition file_step (st : FileState) (ev : Event) : option FileState :=
  match st, ev with
  | NotOpened, EvOpen => Some Opened
  | Opened, EvOpen => None
  | Opened, EvClose => Some Released
  | Opened, _ => Some Opened
  | _, _ => None
  end.

(** The state a trace leaves the file in, or [None] when the trace uses
    the file before it is opened, opens it twice or touches it after its
    release. *)
Fixpoint file_protocol (st : FileState) (tr : list Event) : option FileState :=
  match tr with
  | [] => Some st
  | ev :: rest => st' ← file_step st ev; file_protocol st' rest
  end.

(** A sample file: three midnights from 2000-01-01 on, a grid of one cell. *)
Definition sample_file : Dataset :=
  mkDataset [876576; 876600; 876624] [(5 # 1)%Q] [(-60 # 1)%Q]
            {[ "e"%string := [[[0%Q]]; [[0%Q]]; [[0%Q]]] ]}.

(** A run in which the file opens, the plotter raises and the converter
    would succeed. *)
Definition env_plot_fails : Env :=
  mkEnv (fun _ => OK sample_file) (fun _ => Raise RuntimeError) (fun _ => OK ()).

(** A file with a midnight at each of the two boundary dates of
    [ERA5-To-SHETRAN.py], 2000-01-01 and 2010-01-01, and one more. *)
Definition decade_file : Dataset :=
  mkDataset [876576; 964248; 964272] [(5 # 1)%Q] [(-60 # 1)%Q]
            {[ "e"%string := [[[0%Q]]; [[0%Q]]; [[0%Q]]] ]}.

(** A file whose last time-step repeats its first. *)
Definition repeating_file : Dataset :=
  mkDataset [876576; 876600; 876576] [(5 # 1)%Q] [(-60 # 1)%Q]
            {[ "e"%string := [[[0%Q]]; [[0%Q]]; [[0%Q]]] ]}.

(** A file without time-steps. *)
Definition empty_file : Dataset :=
  mkDataset [] [(5 # 1)%Q] [(-60 # 1)%Q] {[ "e"%string := [] ]}.

(** A file whose second time-step, 2022-01-01 01:00:00, lies after the
    calendar to 2022. *)
Definition late_file : Dataset :=
  mkDataset [876576; 1069441; 876600] [(5 # 1)%Q] [(-60 # 1)%Q]
            {[ "e"%string := [[[0%Q]]; [[0%Q]]; [[0%Q]]] ]}.

(** A run on [d] in which every collaborator succeeds. *)
Definition env_on (d : Dataset) : Env :=
  mkEnv (fun _ => OK d) (fun _ => OK ()) (fun _ => OK ()).

(** How often an event occurs in a trace. *)
Definition occurrences (ev : Event) (tr : list Event) : nat :=
  length (filter (fun x => x = ev) tr).

(** A run in which every collaborator succeeds. *)
Definition env_ok : Env :=
  mkEnv (fun _ => OK sample_file) (fun _ => OK ()) (fun _ => OK ()).

(** The last label of a reference calendar that ends at [end_]. *)
Definition last_label (end_ : string) : Z :=
  last_step epoch (Timestamp_of_string end_) H.

(** The two ends the scripts write down. *)
Definition script_end (end_ : string) : Prop :=
  end_ = calendar_end ERA5_To_SHETRAN.variant \/
  end_ = calendar_end ERA5_Land_To_SHETRAN.variant.

(** ** The grid-to-series converter *)

Module Converter.

















End Converter.

(** ** The conversion stage as the scripts call it *)








(** * Properties *)

(** ** The calendar *)

(** The closed form of the day count agrees with stepping a day at a time
    over the whole span of both reference calendars, 1900 to 2030. *)
Lemma days_from_civil_steps :
  Calendar.agree_from (Calendar.mkDate 1900 1 1) (Z.to_nat 47482) = true.
Proof. vm_compute. reflexivity. Qed.

(** Stepping a day at a time, 36524 days lead from 1900-01-01 to 2000-01-01:
    1900 is not a leap year. *)
Lemma century_by_steps :
  Pos.iter Calendar.next_day (Calendar.mkDate 1900 1 1) 36524
  = Calendar.mkDate 2000 1 1.
Proof. vm_compute. reflexivity. Qed.

Lemma epoch_value : epoch = mkTimestamp (-2208988800000000000).
Proof. vm_compute. reflexivity. Qed.

Lemma add_hours_inj (ts : Timestamp) (h h' : Z) :
  add_hours ts h = add_hours ts h' -> h = h'.
Proof.
  unfold add_hours, NANOS_PER_HOUR, NANOS_PER_SECOND.
  intros Heq. injection Heq as Heq. lia.
Qed.

(** ** [date_range] as a table *)

Section DateRange.

Variables (start end_ : Timestamp) (stride : Z).
Hypothesis stride_pos : 0 < stride.
Hypothesis start_le_end : value start <= value end_.

Local Abbreviation last := (last_step start end_ stride).

Lemma last_step_nonneg : 0 <= last.
Proof. unfold last. apply Z.div_pos; lia. Qed.

Lemma date_range_count :
  (value start + last * stride + stride / 2 + 1
     - value start + stride - 1) / stride = last + 1.
Proof.
  replace (value start + last * stride + stride / 2 + 1
             - value start + stride - 1)
    with ((last + 1) * stride + stride / 2) by lia.
  rewrite Z.div_add_l by lia.
  rewrite (Z.div_small (stride / 2) stride); [lia|].
  split; [apply Z.div_pos; lia|].
  apply Z.div_lt_upper_bound; lia.
Qed.

Lemma date_range_unfold :
  date_range start end_ stride
  = (fun i => mkTimestamp (value start + i * stride)) <$> seqZ 0 (last + 1).
Proof.
  unfold date_range, arange. fold last.
  rewrite date_range_count, <- list_fmap_compose. reflexivity.
Qed.

Lemma date_range_length :
  Z.of_nat (length (date_range start end_ stride)) = last + 1.
Proof.
  rewrite date_range_unfold, length_fmap, length_seqZ.
  pose proof last_step_nonneg. lia.
Qed.

Lemma date_range_lookup (i : nat) :
  Z.of_nat i <= last ->
  date_range start end_ stride !! i
  = Some (mkTimestamp (value start + Z.of_nat i * stride)).
Proof.
  intros Hi. rewrite date_range_unfold, list_lookup_fmap.
  rewrite lookup_seqZ_lt by lia. reflexivity.
Qed.

Lemma has_row_date_range (t : Z) :
  has_row (mkDataFrame (date_range start end_ stride)) t
  <-> 0 <= t <= last.
Proof.
  unfold has_row, len. simpl. rewrite date_range_length. lia.
Qed.

Lemma loc_date_range_in (t : Z) :
  0 <= t <= last ->
  loc (mkDataFrame (date_range start end_ stride)) t
  = OK (mkTimestamp (value start + t * stride)).
Proof.
  intros Ht. unfold loc.
  destruct (decide _) as [_|Hn]; [|rewrite has_row_date_range in Hn; lia].
  simpl. rewrite date_range_lookup by lia.
  rewrite Z2Nat.id by lia. reflexivity.
Qed.

Lemma loc_date_range_out (t : Z) :
  ~ 0 <= t <= last ->
  loc (mkDataFrame (date_range start end_ stride)) t = Raise KeyError.
Proof.
  intros Ht. unfold loc.
  destruct (decide _) as [Hr|_]; [|reflexivity].
  rewrite has_row_date_range in Hr. lia.
Qed.

End DateRange.

(** ** The two reference calendars *)

Lemma H_pos : 0 < H.
Proof. reflexivity. Qed.

Lemma last_label_2022 :
  last_label (calendar_end ERA5_To_SHETRAN.variant) = 1069440.
Proof. vm_compute. reflexivity. Qed.

Lemma last_label_2030 :
  last_label (calendar_end ERA5_Land_To_SHETRAN.variant) = 1139568.
Proof. vm_compute. reflexivity. Qed.

Lemma script_end_after_epoch (end_ : string) :
  script_end end_ -> value epoch <= value (Timestamp_of_string end_).
Proof. intros [-> | ->]; vm_compute; discriminate. Qed.

Lemma has_row_calendar (end_ : string) (t : Z) :
  script_end end_ ->
  has_row (build_ERA5DateIndex end_) t <-> 0 <= t <= last_label end_.
Proof.
  intros He. unfold build_ERA5DateIndex.
  apply has_row_date_range; [apply H_pos | by apply script_end_after_epoch].
Qed.

Lemma loc_calendar_in (end_ : string) (t : Z) :
  script_end end_ ->
  has_row (build_ERA5DateIndex end_) t ->
  loc (build_ERA5DateIndex end_) t = OK (add_hours epoch t).
Proof.
  intros He Hr. apply has_row_calendar in Hr; [|done].
  unfold build_ERA5DateIndex.
  rewrite loc_date_range_in;
    [reflexivity | apply H_pos | by apply script_end_after_epoch | exact Hr].
Qed.

Lemma loc_calendar_out (end_ : string) (t : Z) :
  script_end end_ ->
  ~ has_row (build_ERA5DateIndex end_) t ->
  loc (build_ERA5DateIndex end_) t = Raise KeyError.
Proof.
  intros He Hr. rewrite has_row_calendar in Hr by done.
  unfold build_ERA5DateIndex.
  apply loc_date_range_out;
    [apply H_pos | by apply script_end_after_epoch | exact Hr].
Qed.

Lemma has_row_2022 (t : Z) :
  has_row ERA5_To_SHETRAN.ERA5DateIndex t <-> 0 <= t <= 1069440.
Proof.
  unfold ERA5_To_SHETRAN.ERA5DateIndex.
  rewrite has_row_calendar by (by left). by rewrite last_label_2022.
Qed.

Lemma has_row_2030 (t : Z) :
  has_row ERA5_Land_To_SHETRAN.ERA5DateIndex t <-> 0 <= t <= 1139568.
Proof.
  unfold ERA5_Land_To_SHETRAN.ERA5DateIndex.
  rewrite has_row_calendar by (by right). by rewrite last_label_2030.
Qed.

(** ** The time-axis resolver *)

Lemma TimeIndex_append_in (end_ : string) (TimeIndex : list Timestamp) (t : Z) :
  script_end end_ ->
  has_row (build_ERA5DateIndex end_) t ->
  TimeIndex_append (build_ERA5DateIndex end_) TimeIndex t
  = OK (TimeIndex ++ [add_hours epoch t]).
Proof.
  intros He Hr. unfold TimeIndex_append.
  rewrite loc_calendar_in by done. reflexivity.
Qed.

Lemma TimeIndex_append_out (end_ : string) (TimeIndex : list Timestamp) (t : Z) :
  script_end end_ ->
  ~ has_row (build_ERA5DateIndex end_) t ->
  TimeIndex_append (build_ERA5DateIndex end_) TimeIndex t = Raise KeyError.
Proof.
  intros He Hr. unfold TimeIndex_append.
  rewrite loc_calendar_out by done. reflexivity.
Qed.

Lemma TimeIndex_loop_in (end_ : string) (times : list Z) :
  script_end end_ ->
  Forall (has_row (build_ERA5DateIndex end_)) times ->
  forall TimeIndex,
    TimeIndex_loop (build_ERA5DateIndex end_) TimeIndex times
    = OK (TimeIndex ++ (add_hours epoch <$> times)).
Proof.
  intros He Hall. induction Hall as [|t rest Ht _ IH]; intros TimeIndex.
  - simpl. by rewrite app_nil_r.
  - cbn [TimeIndex_loop]. rewrite TimeIndex_append_in by done.
    change (TimeIndex_loop (build_ERA5DateIndex end_)
              (TimeIndex ++ [add_hours epoch t]) rest
            = OK (TimeIndex ++ (add_hours epoch <$> t :: rest))).
    rewrite IH, <- app_assoc. reflexivity.
Qed.

Lemma TimeIndex_loop_out (end_ : string) (times : list Z) :
  script_end end_ ->
  Exists (fun t => ~ has_row (build_ERA5DateIndex end_) t) times ->
  forall TimeIndex,
    TimeIndex_loop (build_ERA5DateIndex end_) TimeIndex times = Raise KeyError.
Proof.
  intros He Hex. induction Hex as [t rest Ht | t rest _ IH]; intros TimeIndex.
  - cbn [TimeIndex_loop]. by rewrite TimeIndex_append_out.
  - cbn [TimeIndex_loop].
    destruct (decide (has_row (build_ERA5DateIndex end_) t)) as [Hr|Hr].
    + rewrite TimeIndex_append_in by done. apply IH.
    + by rewrite TimeIndex_append_out.
Qed.

(** A strictly increasing sequence is bounded by its last entry. *)
Lemma increasing_le_last (times : list Z) (m : Z) :
  StronglySorted Z.lt times -> last times = Some m -> Forall (fun t => t <= m) times.
Proof.
  intros Hs. induction Hs as [|t rest Hs IH Hlt]; intros Hl; [constructor|].
  destruct rest as [|t' rest'].
  - simpl in Hl. injection Hl as <-. repeat constructor. lia.
  - rewrite last_cons_cons in Hl. specialize (IH Hl). constructor; [|exact IH].
    apply Forall_inv in Hlt, IH. lia.
Qed.

(** C1: a time-step [t] read from the file that labels a row of the
    reference calendar is resolved, in either script, to the epoch
    1900-01-01 00:00:00 plus [t] hours: the loop body appends exactly that
    timestamp. *)
Theorem resolver_epoch_plus_hours (end_ : string) (TimeIndex : list Timestamp) (t : Z) :
  script_end end_ ->
  has_row (build_ERA5DateIndex end_) t ->
  loc (build_ERA5DateIndex end_) t = OK (add_hours epoch t) /\
  TimeIndex_append (build_ERA5DateIndex end_) TimeIndex t
  = OK (TimeIndex ++ [add_hours epoch t]).
Proof.
  intros He Hr. split; [by apply loc_calendar_in | by apply TimeIndex_append_in].
Qed.

Lemma resolver_epoch_plus_hours_witness :
  has_row ERA5_To_SHETRAN.ERA5DateIndex 946080 /\
  loc ERA5_To_SHETRAN.ERA5DateIndex 946080 = OK (add_hours epoch 946080) /\
  TimeIndex_append ERA5_To_SHETRAN.ERA5DateIndex [] 946080
  = OK ([] ++ [add_hours epoch 946080]).
Proof.
  assert (Hr : has_row ERA5_To_SHETRAN.ERA5DateIndex 946080)
    by (apply has_row_2022; lia).
  split; [exact Hr|].
  exact (resolver_epoch_plus_hours
           (calendar_end ERA5_To_SHETRAN.variant) [] 946080
           (or_introl eq_refl) Hr).
Defined.

(** C2, as the code has it: 876600 hours after 1900-01-01 00:00:00 is
    2000-01-02 00:00:00, in both scripts; the timestamp 2000-01-01 00:00:00
    is the time-step 876576, the century having 24 leap years. *)
Theorem resolve_876600 :
  loc ERA5_To_SHETRAN.ERA5DateIndex 876600
    = OK (Timestamp_of_string "2000-01-02 00:00:00") /\
  loc ERA5_Land_To_SHETRAN.ERA5DateIndex 876600
    = OK (Timestamp_of_string "2000-01-02 00:00:00") /\
  loc ERA5_To_SHETRAN.ERA5DateIndex 876576
    = OK (Timestamp_of_string "2000-01-01 00:00:00") /\
  loc ERA5_Land_To_SHETRAN.ERA5DateIndex 876576
    = OK (Timestamp_of_string "2000-01-01 00:00:00").
Proof.
  unfold ERA5_To_SHETRAN.ERA5DateIndex, ERA5_Land_To_SHETRAN.ERA5DateIndex.
  split; [|split; [|split]].
  - rewrite loc_calendar_in; [vm_compute; reflexivity | by left |].
    apply has_row_2022. lia.
  - rewrite loc_calendar_in; [vm_compute; reflexivity | by right |].
    apply has_row_2030. lia.
  - rewrite loc_calendar_in; [vm_compute; reflexivity | by left |].
    apply has_row_2022. lia.
  - rewrite loc_calendar_in; [vm_compute; reflexivity | by right |].
    apply has_row_2030. lia.
Qed.

(** C2, as the claim has it, fails: the time-step 876600 does not resolve to
    2000-01-01 00:00:00. *)
Lemma resolve_876600_not_2000_01_01 :
  loc ERA5_To_SHETRAN.ERA5DateIndex 876600
  <> OK (Timestamp_of_string "2000-01-01 00:00:00").
Proof.
  unfold ERA5_To_SHETRAN.ERA5DateIndex.
  rewrite loc_calendar_in; [vm_compute; discriminate | by left |].
  apply has_row_2022. lia.
Qed.

(** C3: when the time-steps of the file are counts of elapsed hours in
    increasing order and the reference calendar has a row for the last of
    them, the resolver returns one timestamp per time-step, none dropped;
    when some time-step lies beyond the last row of the calendar
    (2022-01-01 00:00:00 in one script, 2030-01-01 00:00:00 in the other),
    the lookup raises [KeyError] and nothing is resolved. *)
Theorem resolver_covers_or_fails (end_ : string) (times : list Z) :
  script_end end_ ->
  (Forall (fun t => 0 <= t) times ->
   StronglySorted Z.lt times ->
   (forall t, last times = Some t -> has_row (build_ERA5DateIndex end_) t) ->
   exists TimeIndex,
     resolve_TimeIndex (build_ERA5DateIndex end_) times = OK TimeIndex /\
     length TimeIndex = length times /\
     forall i t, times !! i = Some t -> TimeIndex !! i = Some (add_hours epoch t))
  /\
  (forall t, t ∈ times -> last_label end_ < t ->
     loc (build_ERA5DateIndex end_) t = Raise KeyError /\
     resolve_TimeIndex (build_ERA5DateIndex end_) times = Raise KeyError)
  /\
  add_hours epoch (last_label end_) = Timestamp_of_string end_.
Proof.
  intros He. split; [|split].
  - intros Hpos Hsort Hlast.
    assert (Hall : Forall (has_row (build_ERA5DateIndex end_)) times).
    { destruct (last times) as [m|] eqn:Hm.
      - pose proof (increasing_le_last times m Hsort Hm) as Hle.
        specialize (Hlast m eq_refl).
        rewrite has_row_calendar in Hlast by done.
        rewrite Forall_forall in Hpos, Hle. apply Forall_forall. intros t Ht.
        rewrite has_row_calendar by done.
        specialize (Hpos t Ht). specialize (Hle t Ht). lia.
      - apply last_None in Hm. subst. constructor. }
    exists (add_hours epoch <$> times). split; [|split].
    + unfold resolve_TimeIndex. by rewrite TimeIndex_loop_in.
    + by rewrite length_fmap.
    + intros i t Hi. by rewrite list_lookup_fmap, Hi.
  - intros t Hin Hbig.
    assert (Hno : ~ has_row (build_ERA5DateIndex end_) t).
    { rewrite has_row_calendar by done. lia. }
    split; [by apply loc_calendar_out|].
    unfold resolve_TimeIndex. apply TimeIndex_loop_out; [done|].
    apply Exists_exists. eauto.
  - destruct He as [-> | ->]; vm_compute; reflexivity.
Qed.

Lemma resolver_covers_or_fails_witness :
  (exists TimeIndex,
     resolve_TimeIndex ERA5_To_SHETRAN.ERA5DateIndex [876576; 876600; 1069440]
       = OK TimeIndex /\
     length TimeIndex = 3%nat /\
     forall i t, [876576; 876600; 1069440] !! i = Some t ->
                 TimeIndex !! i = Some (add_hours epoch t)) /\
  resolve_TimeIndex ERA5_To_SHETRAN.ERA5DateIndex [876576; 1069441]
    = Raise KeyError.
Proof.
  pose proof (resolver_covers_or_fails
                (calendar_end ERA5_To_SHETRAN.variant)
                [876576; 876600; 1069440] (or_introl eq_refl)) as [Hok _].
  pose proof (resolver_covers_or_fails
                (calendar_end ERA5_To_SHETRAN.variant)
                [876576; 1069441] (or_introl eq_refl)) as [_ [Hfail _]].
  split.
  - apply Hok.
    + repeat constructor; lia.
    + repeat constructor; lia.
    + intros t Ht. injection Ht as <-. apply has_row_2022. lia.
  - apply (Hfail 1069441).
    + apply list_elem_of_In. simpl. auto.
    + rewrite last_label_2022. lia.
Defined.

(** C8: resolving a time-step that is in range gives one timestamp, the
    same whatever has been resolved before and the same when the time-step
    is resolved a second time. *)
Theorem resolve_twice_same (end_ : string) (t : Z) :
  script_end end_ ->
  has_row (build_ERA5DateIndex end_) t ->
  exists ts,
    loc (build_ERA5DateIndex end_) t = OK ts /\
    (forall TimeIndex,
       TimeIndex_append (build_ERA5DateIndex end_) TimeIndex t
       = OK (TimeIndex ++ [ts])) /\
    (forall TimeIndex,
       TimeIndex_loop (build_ERA5DateIndex end_) TimeIndex [t; t]
       = OK (TimeIndex ++ [ts; ts])).
Proof.
  intros He Hr. exists (add_hours epoch t). split; [|split].
  - by apply loc_calendar_in.
  - intros TimeIndex. by apply TimeIndex_append_in.
  - intros TimeIndex. rewrite TimeIndex_loop_in; [reflexivity | done |].
    apply Forall_cons; split; [done|]. apply Forall_cons; split; [done|].
    apply Forall_nil; done.
Qed.

Lemma resolve_twice_same_witness :
  exists ts,
    loc ERA5_Land_To_SHETRAN.ERA5DateIndex 876576 = OK ts /\
    (forall TimeIndex,
       TimeIndex_append ERA5_Land_To_SHETRAN.ERA5DateIndex TimeIndex 876576
       = OK (TimeIndex ++ [ts])) /\
    (forall TimeIndex,
       TimeIndex_loop ERA5_Land_To_SHETRAN.ERA5DateIndex TimeIndex [876576; 876576]
       = OK (TimeIndex ++ [ts; ts])).
Proof.
  apply (resolve_twice_same (calendar_end ERA5_Land_To_SHETRAN.variant) 876576).
  - right. reflexivity.
  - apply has_row_2030. lia.
Defined.

(** ** Boundary indices *)

Lemma py_getitem_0 {A} (l : list A) :
  py_getitem l 0 = match l with [] => Raise IndexError | x :: _ => OK x end.
Proof.
  unfold py_getitem. cbv zeta. destruct l as [|x l]; simpl length.
  - repeat case_decide; try lia; reflexivity.
  - repeat case_decide; try lia. reflexivity.
Qed.

Lemma py_getitem_last {A} (l : list A) (x : A) :
  last l = Some x -> py_getitem l (-1) = OK x.
Proof.
  intros Hl. unfold py_getitem. cbv zeta.
  assert (Hlen : (0 < length l)%nat).
  { destruct l; [discriminate | simpl; lia]. }
  repeat case_decide; try lia.
  rewrite last_lookup in Hl.
  replace (Z.to_nat (-1 + Z.of_nat (length l))) with (Init.Nat.pred (length l)) by lia.
  by rewrite Hl.
Qed.

(** The first label under the mask is the first position that holds the
    boundary. *)
Lemma boolean_index_find (col : list Timestamp) (b : Timestamp) (s : Z) :
  py_getitem
    (boolean_index (seqZ s (Z.of_nat (length col)))
                   ((fun ts => bool_decide (ts = b)) <$> col)) 0
  = match list_find (fun ts => ts = b) col with
    | Some (i, _) => OK (s + Z.of_nat i)
    | None => Raise IndexError
    end.
Proof.
  revert s. induction col as [|x col IH]; intros s; [reflexivity|].
  simpl length. rewrite seqZ_cons by lia.
  replace (Z.pred (Z.of_nat (S (length col)))) with (Z.of_nat (length col)) by lia.
  cbn [fmap list_fmap boolean_index list_find].
  destruct (decide (x = b)) as [Heq|Hne].
  - rewrite bool_decide_eq_true_2 by done. rewrite py_getitem_0.
    f_equal. lia.
  - rewrite bool_decide_eq_false_2 by done. rewrite IH.
    destruct (list_find _ col) as [[i y]|]; simpl; [f_equal; lia | reflexivity].
Qed.

Lemma boundary_index_find (DfTimeIndex : DataFrame) (b : Timestamp) :
  boundary_index DfTimeIndex b
  = match list_find (fun ts => ts = b) (column DfTimeIndex) with
    | Some (i, _) => OK (Z.of_nat i)
    | None => Raise IndexError
    end.
Proof.
  unfold boundary_index, index, eq_mask, len.
  rewrite boolean_index_find.
  destruct (list_find _ _) as [[i y]|]; [f_equal|reflexivity].
Qed.

Lemma boundary_index_first (DfTimeIndex : DataFrame) (b : Timestamp) (i : nat) :
  column DfTimeIndex !! i = Some b ->
  (forall j y, column DfTimeIndex !! j = Some y -> (j < i)%nat -> y <> b) ->
  boundary_index DfTimeIndex b = OK (Z.of_nat i).
Proof.
  intros Hi Hbefore. rewrite boundary_index_find.
  assert (Hf : list_find (fun ts => ts = b) (column DfTimeIndex) = Some (i, b)).
  { apply list_find_Some. auto. }
  by rewrite Hf.
Qed.

Lemma boundary_index_absent (DfTimeIndex : DataFrame) (b : Timestamp) :
  b ∉ column DfTimeIndex -> boundary_index DfTimeIndex b = Raise IndexError.
Proof.
  intros Hno. rewrite boundary_index_find.
  assert (Hf : list_find (fun ts => ts = b) (column DfTimeIndex) = None).
  { apply list_find_None, Forall_forall. intros x Hx ->. contradiction. }
  by rewrite Hf.
Qed.

Lemma boundary_index_OK (DfTimeIndex : DataFrame) (b : Timestamp) (k : Z) :
  boundary_index DfTimeIndex b = OK k ->
  exists i : nat,
    k = Z.of_nat i /\
    column DfTimeIndex !! i = Some b /\
    forall j y, column DfTimeIndex !! j = Some y -> (j < i)%nat -> y <> b.
Proof.
  rewrite boundary_index_find.
  destruct (list_find _ _) as [[i y]|] eqn:Hf; [|discriminate].
  intros Hk. injection Hk as <-. apply list_find_Some in Hf as (Hi & -> & Hb).
  exists i. auto.
Qed.

Lemma boundary_index_present (DfTimeIndex : DataFrame) (b : Timestamp) :
  b ∈ column DfTimeIndex -> exists k, boundary_index DfTimeIndex b = OK k.
Proof.
  intros Hin. rewrite boundary_index_find.
  destruct (list_find_elem_of (fun ts => ts = b) (column DfTimeIndex) b Hin eq_refl)
    as [[i y] Hf].
  rewrite Hf. eauto.
Qed.

(** C4: a boundary timestamp that does not occur in the resolved sequence
    makes the index resolution raise [IndexError], a [LookupError]; and an
    index that is returned is the index of an entry equal to the boundary,
    never of another one. *)
Theorem boundary_absent_raises (DfTimeIndex : DataFrame) (b : Timestamp) :
  (b ∉ column DfTimeIndex ->
     boundary_index DfTimeIndex b = Raise IndexError /\
     raises_LookupError (boundary_index DfTimeIndex b)) /\
  (forall k, boundary_index DfTimeIndex b = OK k ->
     0 <= k /\ column DfTimeIndex !! Z.to_nat k = Some b).
Proof.
  split.
  - intros Hno. rewrite boundary_index_absent by done. split; reflexivity.
  - intros k Hk. apply boundary_index_OK in Hk as (i & -> & Hi & _).
    split; [lia|]. by rewrite Nat2Z.id.
Qed.

Lemma boundary_absent_raises_witness :
  (boundary_index (build_DfTimeIndex (hourly epoch 3))
     (Timestamp_of_string ERA5_To_SHETRAN.StartTime) = Raise IndexError /\
   raises_LookupError
     (boundary_index (build_DfTimeIndex (hourly epoch 3))
        (Timestamp_of_string ERA5_To_SHETRAN.StartTime))) /\
  (0 <= 1 /\
   column (build_DfTimeIndex (hourly epoch 3)) !! Z.to_nat 1
   = Some (add_hours epoch 1)).
Proof.
  split.
  - apply (boundary_absent_raises (build_DfTimeIndex (hourly epoch 3))
             (Timestamp_of_string ERA5_To_SHETRAN.StartTime)).
    apply (bool_decide_unpack _). vm_compute. exact I.
  - apply (boundary_absent_raises (build_DfTimeIndex (hourly epoch 3))
             (add_hours epoch 1)).
    vm_compute. reflexivity.
Defined.

Lemma hourly_lookup (t0 : Timestamp) (n : Z) (i : nat) :
  Z.of_nat i < n -> hourly t0 n !! i = Some (add_hours t0 (Z.of_nat i)).
Proof.
  intros Hi. unfold hourly. rewrite list_lookup_fmap, lookup_seqZ_lt by lia.
  reflexivity.
Qed.

Lemma hourly_lookup_inv (t0 : Timestamp) (n : Z) (i : nat) (y : Timestamp) :
  hourly t0 n !! i = Some y -> y = add_hours t0 (Z.of_nat i).
Proof.
  unfold hourly. rewrite list_lookup_fmap. intros Hy.
  apply fmap_Some in Hy as (k & Hk & ->). apply lookup_seqZ in Hk as [-> _].
  reflexivity.
Qed.

Lemma boundary_index_hourly (t0 : Timestamp) (n k : Z) :
  0 <= k < n ->
  boundary_index (build_DfTimeIndex (hourly t0 n)) (add_hours t0 k) = OK k.
Proof.
  intros Hk. rewrite <- (Z2Nat.id k) at 2 by lia.
  apply boundary_index_first.
  - simpl. rewrite hourly_lookup by lia. by rewrite Z2Nat.id by lia.
  - simpl. intros j y Hy Hj ->. apply hourly_lookup_inv in Hy.
    apply add_hours_inj in Hy. lia.
Qed.

(** C5: in a resolved sequence of consecutive hourly timestamps
    [t0, t0+1h, t0+2h, ...], the boundary [t0+2h] has index 2. *)
Theorem boundary_of_hourly (t0 : Timestamp) (n : Z) :
  3 <= n ->
  boundary_index (build_DfTimeIndex (hourly t0 n)) (add_hours t0 2) = OK 2.
Proof. intros Hn. apply boundary_index_hourly. lia. Qed.

Lemma boundary_of_hourly_witness :
  3 <= 24 /\
  boundary_index
    (build_DfTimeIndex (hourly (Timestamp_of_string "2000-01-01 00:00:00") 24))
    (add_hours (Timestamp_of_string "2000-01-01 00:00:00") 2) = OK 2.
Proof.
  split; [lia|].
  apply (boundary_of_hourly (Timestamp_of_string "2000-01-01 00:00:00") 24). lia.
Defined.

Lemma increasing_lookup (l : list Z) (i j : nat) (a b : Z) :
  StronglySorted Z.lt l ->
  l !! i = Some a -> l !! j = Some b -> (i < j)%nat -> a < b.
Proof.
  intros Hs. revert i j. induction Hs as [|x l Hs IH Hall]; intros i j Hi Hj Hlt.
  - discriminate.
  - destruct j as [|j]; [lia|]. destruct i as [|i].
    + injection Hi as <-. rewrite Forall_forall in Hall.
      apply Hall. by eapply list_elem_of_lookup_2.
    + apply (IH i j); [done | done | lia].
Qed.

(** The time axis of the Land script on a non-empty, strictly increasing
    time variable inside the calendar. *)
Lemma land_resolved (times : list Z) :
  times <> [] ->
  StronglySorted Z.lt times ->
  Forall (has_row ERA5_Land_To_SHETRAN.ERA5DateIndex) times ->
  exists StartTime EndTime,
    resolve_TimeIndex ERA5_Land_To_SHETRAN.ERA5DateIndex times
      = OK (add_hours epoch <$> times) /\
    boundary_times ERA5_Land_To_SHETRAN.variant (add_hours epoch <$> times)
      = OK (StartTime, EndTime) /\
    head (add_hours epoch <$> times) = Some StartTime /\
    last (add_hours epoch <$> times) = Some EndTime /\
    boundary_index (build_DfTimeIndex (add_hours epoch <$> times)) StartTime
      = OK 0 /\
    boundary_index (build_DfTimeIndex (add_hours epoch <$> times)) EndTime
      = OK (Z.of_nat (length times) - 1).
Proof.
  intros Hne Hsort Hall.
  unfold ERA5_Land_To_SHETRAN.ERA5DateIndex in *.
  assert (He : script_end (calendar_end ERA5_Land_To_SHETRAN.variant))
    by (by right).
  destruct times as [|t0 rest]; [done|].
  destruct (last (t0 :: rest)) as [tn|] eqn:Hlast;
    [|by apply last_None in Hlast].
  set (TimeIndex := add_hours epoch <$> t0 :: rest).
  assert (Hl : last TimeIndex = Some (add_hours epoch tn)).
  { unfold TimeIndex. by rewrite fmap_last, Hlast. }
  exists (add_hours epoch t0), (add_hours epoch tn).
  split; [|split; [|split; [|split; [|split]]]].
  - unfold resolve_TimeIndex. by rewrite TimeIndex_loop_in.
  - cbn [boundary_times ERA5_Land_To_SHETRAN.variant].
    rewrite py_getitem_0, (py_getitem_last _ _ Hl). reflexivity.
  - reflexivity.
  - exact Hl.
  - apply (boundary_index_first _ _ 0%nat); [reflexivity | intros; lia].
  - replace (Z.of_nat (length (t0 :: rest)) - 1)
      with (Z.of_nat (Init.Nat.pred (length TimeIndex)))
      by (unfold TimeIndex; simpl length; rewrite length_fmap; lia).
    apply boundary_index_first; unfold build_DfTimeIndex; cbn [column].
    + by rewrite <- last_lookup.
    + intros j y Hy Hj ->. unfold TimeIndex in Hy, Hj.
      rewrite length_fmap in Hj. rewrite list_lookup_fmap in Hy.
      apply fmap_Some in Hy as (tj & Htj & Heq). apply add_hours_inj in Heq.
      rewrite last_lookup in Hlast.
      pose proof (increasing_lookup _ _ _ _ _ Hsort Htj Hlast Hj). lia.
Qed.

(** C10: in the script that takes its boundaries from the resolved sequence,
    a non-empty file with strictly increasing time-steps in the calendar
    gives [StartIdx = 0] and [EndIdx = len - 1]; and whatever the sequence,
    a boundary that occurs in it resolves to its first occurrence. *)
Theorem land_boundary_indices (times : list Z) :
  (times <> [] ->
   StronglySorted Z.lt times ->
   Forall (has_row ERA5_Land_To_SHETRAN.ERA5DateIndex) times ->
   exists TimeIndex StartTime EndTime,
     resolve_TimeIndex ERA5_Land_To_SHETRAN.ERA5DateIndex times = OK TimeIndex /\
     length TimeIndex = length times /\
     boundary_times ERA5_Land_To_SHETRAN.variant TimeIndex
       = OK (StartTime, EndTime) /\
     head TimeIndex = Some StartTime /\
     last TimeIndex = Some EndTime /\
     boundary_index (build_DfTimeIndex TimeIndex) StartTime = OK 0 /\
     boundary_index (build_DfTimeIndex TimeIndex) EndTime
       = OK (Z.of_nat (length TimeIndex) - 1))
  /\
  (forall (DfTimeIndex : DataFrame) (b : Timestamp),
     b ∈ column DfTimeIndex ->
     exists i : nat,
       boundary_index DfTimeIndex b = OK (Z.of_nat i) /\
       column DfTimeIndex !! i = Some b /\
       forall j : nat, (j < i)%nat -> column DfTimeIndex !! j <> Some b).
Proof.
  split.
  - intros Hne Hsort Hall.
    destruct (land_resolved times Hne Hsort Hall)
      as (StartTime & EndTime & Hres & Hb & Hhd & Hla & Hs & He).
    exists (add_hours epoch <$> times), StartTime, EndTime.
    rewrite length_fmap. auto 10.
  - intros DfTimeIndex b Hin.
    destruct (boundary_index_present _ _ Hin) as [k Hk].
    destruct (boundary_index_OK _ _ _ Hk) as (i & -> & Hi & Hfirst).
    exists i. split; [done|]. split; [done|].
    intros j Hj Hjb. by apply (Hfirst j b).
Qed.

Lemma land_boundary_indices_witness :
  (exists TimeIndex StartTime EndTime,
     resolve_TimeIndex ERA5_Land_To_SHETRAN.ERA5DateIndex (time sample_file)
       = OK TimeIndex /\
     length TimeIndex = length (time sample_file) /\
     boundary_times ERA5_Land_To_SHETRAN.variant TimeIndex
       = OK (StartTime, EndTime) /\
     head TimeIndex = Some StartTime /\
     last TimeIndex = Some EndTime /\
     boundary_index (build_DfTimeIndex TimeIndex) StartTime = OK 0 /\
     boundary_index (build_DfTimeIndex TimeIndex) EndTime
       = OK (Z.of_nat (length TimeIndex) - 1))
  /\
  (exists i : nat,
     boundary_index (build_DfTimeIndex [epoch; add_hours epoch 1; epoch])
                    epoch = OK (Z.of_nat i) /\
     [epoch; add_hours epoch 1; epoch] !! i = Some epoch /\
     forall j : nat, (j < i)%nat ->
       [epoch; add_hours epoch 1; epoch] !! j <> Some epoch).
Proof.
  destruct (land_boundary_indices (time sample_file)) as [Hland _].
  destruct (land_boundary_indices []) as [_ Hfirst].
  split.
  - apply Hland.
    + discriminate.
    + repeat constructor; lia.
    + simpl. repeat (apply Forall_cons; split; [apply has_row_2030; lia|]).
      apply Forall_nil. exact I.
  - apply (Hfirst (build_DfTimeIndex [epoch; add_hours epoch 1; epoch]) epoch).
    simpl. apply list_elem_of_here.
Defined.

(** ** Runs of a script *)

Lemma bind_run {A B} (m : Script A) (f : A -> Script B) (w : World) :
  (m ≫= f) w
  = match m w with
    | (OK a, w') => f a w'
    | (Raise e, w') => (Raise e, w')
    end.
Proof. reflexivity. Qed.

Lemma bind_OK {A B} (a : A) (f : A -> Result B) : (OK a ≫= f) = f a.
Proof. reflexivity. Qed.

Lemma bind_Raise {A B} (e : PyErr) (f : A -> Result B) :
  (Raise e ≫= f) = Raise e.
Proof. reflexivity. Qed.

Lemma access_open (ev : Event) (tr : list Event) :
  access ev (mkWorld true tr) = (OK (), mkWorld true (tr ++ [ev])).
Proof. reflexivity. Qed.

Lemma py_getitem_middle {A} (pre : list A) (x : A) (rest : list A) :
  py_getitem (pre ++ x :: rest) (Z.of_nat (length pre)) = OK x.
Proof.
  unfold py_getitem. cbv zeta. rewrite length_app. simpl length.
  repeat case_decide; try lia.
  rewrite Nat2Z.id, lookup_app_r by lia.
  by rewrite Nat.sub_diag.
Qed.

(** The loop of a script computes [TimeIndex_loop] on the time variable and
    reads the file once a turn. *)
Lemma for_range_run (ERA5DateIndex : DataFrame) (ERA5 : Dataset) (rest : list Z) :
  forall (pre : list Z) (TimeIndex : list Timestamp) (tr : list Event),
    time ERA5 = pre ++ rest ->
    exists k : nat,
      (k <= length rest)%nat /\
      for_range ERA5DateIndex ERA5 TimeIndex
        (seqZ (Z.of_nat (length pre)) (Z.of_nat (length rest))) (mkWorld true tr)
      = (TimeIndex_loop ERA5DateIndex TimeIndex rest,
         mkWorld true (tr ++ replicate k EvReadTime)).
Proof.
  induction rest as [|t rest IH]; intros pre TimeIndex tr Htime.
  - exists 0%nat. split; [lia|]. simpl. by rewrite app_nil_r.
  - simpl length. rewrite seqZ_cons by lia.
    replace (Z.pred (Z.of_nat (S (length rest)))) with (Z.of_nat (length rest)) by lia.
    cbn [for_range TimeIndex_loop]. rewrite bind_run.
    unfold loop_turn at 1. rewrite bind_run, access_open.
    rewrite bind_run. unfold lift at 1. rewrite Htime, py_getitem_middle.
    unfold lift at 1.
    destruct (TimeIndex_append ERA5DateIndex TimeIndex t) as [TimeIndex'|e].
    + destruct (IH (pre ++ [t]) TimeIndex' (tr ++ [EvReadTime])) as (k & Hk & Hrun).
      { by rewrite <- app_assoc. }
      exists (S k). split; [lia|].
      rewrite length_app in Hrun. simpl length in Hrun.
      replace (Z.succ (Z.of_nat (length pre)))
        with (Z.of_nat (length pre + 1)) by lia.
      rewrite Hrun, <- app_assoc. reflexivity.
    + exists 1%nat. split; [lia|]. reflexivity.
Qed.

Lemma run_open_fails (env : Env) (v : Variant) (e : PyErr) :
  env_open env (DirectoryIn v +:+ FileNameIn v +:+ ExtIn) = Raise e ->
  run env v = (Raise e, World0).
Proof.
  intros Hopen. unfold run, main. rewrite bind_run.
  unfold Dataset_open at 1. by rewrite Hopen.
Qed.

(** A run on a file that opens ends as [outcome] says. *)
Lemma run_outcome (env : Env) (v : Variant) (ERA5 : Dataset) :
  env_open env (DirectoryIn v +:+ FileNameIn v +:+ ExtIn) = OK ERA5 ->
  exists k : nat,
    (k <= length (time ERA5))%nat /\ run env v = outcome env v ERA5 k.
Proof.
  intros Hopen.
  destruct (for_range_run (build_ERA5DateIndex (calendar_end v)) ERA5
              (time ERA5) [] []
              [EvOpen; EvVariables; EvVariables; EvReadTime] eq_refl)
    as (k & Hk & Hloop).
  exists k. split; [exact Hk|].
  unfold run, main, outcome, time_axis, resolve_TimeIndex.
  rewrite bind_run. unfold Dataset_open at 1. rewrite Hopen.
  unfold World0. cbn [trace app].
  do 3 (rewrite bind_run, access_open; cbn [app]).
  rewrite bind_run.
  change (Z.of_nat (length (@nil Z))) with 0 in Hloop.
  rewrite Hloop.
  fold (time_axis_events k).
  destruct (TimeIndex_loop _ [] (time ERA5)) as [TimeIndex|e]; [|reflexivity].
  rewrite bind_OK, bind_run. unfold lift at 1.
  destruct (boundary_times v TimeIndex) as [bounds|e]; [|reflexivity].
  rewrite bind_OK, bind_run. unfold lift at 1.
  destruct (boundary_index _ bounds.1) as [StartIdx|e]; [|reflexivity].
  rewrite bind_OK, bind_run. unfold lift at 1.
  destruct (boundary_index _ bounds.2) as [EndIdx|e]; [|reflexivity].
  rewrite bind_OK.
  rewrite bind_run. unfold NetCDFPlotter at 1.
  rewrite bind_run, access_open. unfold lift at 1.
  destruct (env_NetCDFPlotter env ERA5) as [[]|e]; [|reflexivity].
  rewrite bind_run. unfold NetCDFToSHETRAN at 1.
  rewrite bind_run, access_open. unfold lift at 1.
  destruct (env_NetCDFToSHETRAN env ERA5) as [[]|e];
    [|by rewrite <- app_assoc].
  rewrite bind_run. unfold Dataset_close at 1.
  rewrite bind_run, access_open.
  unfold set_closed. cbn [trace mret Script_ret].
  by rewrite <- !app_assoc.
Qed.

Lemma run_cases (env : Env) (v : Variant) :
  (exists e,
     env_open env (DirectoryIn v +:+ FileNameIn v +:+ ExtIn) = Raise e /\
     run env v = (Raise e, World0)) \/
  (exists ERA5 k,
     env_open env (DirectoryIn v +:+ FileNameIn v +:+ ExtIn) = OK ERA5 /\
     run env v = outcome env v ERA5 k).
Proof.
  destruct (env_open env (DirectoryIn v +:+ FileNameIn v +:+ ExtIn))
    as [ERA5|e] eqn:Hopen.
  - right. destruct (run_outcome env v ERA5 Hopen) as (k & _ & Hrun). eauto.
  - left. exists e. split; [done|]. by apply run_open_fails.
Qed.

Lemma time_axis_events_only (k : nat) (ev : Event) :
  ev ∈ time_axis_events k -> ev = EvOpen \/ ev = EvVariables \/ ev = EvReadTime.
Proof.
  unfold time_axis_events. rewrite elem_of_app, elem_of_replicate.
  rewrite !elem_of_cons, elem_of_nil. tauto.
Qed.

Ltac trace_mem :=
  repeat match goal with
    | H : _ ∈ _ ++ _ |- _ => apply elem_of_app in H as [H|H]
    | H : _ ∈ time_axis_events _ |- _ =>
        apply time_axis_events_only in H as [H|[H|H]]; discriminate H
    | H : _ ∈ _ :: _ |- _ => apply elem_of_cons in H as [H|H]; [try discriminate H|]
    | H : _ ∈ [] |- _ => by apply elem_of_nil in H
    end.

Lemma occurrences_app (ev : Event) (l1 l2 : list Event) :
  occurrences ev (l1 ++ l2) = (occurrences ev l1 + occurrences ev l2)%nat.
Proof. unfold occurrences. by rewrite filter_app, length_app. Qed.

Lemma occurrences_reads (ev : Event) (k : nat) :
  ev <> EvReadTime -> occurrences ev (replicate k EvReadTime) = 0%nat.
Proof.
  intros Hne. unfold occurrences. induction k as [|k IH]; [reflexivity|].
  simpl replicate. rewrite filter_cons_False by congruence. exact IH.
Qed.

Lemma file_protocol_app (st : FileState) (l1 l2 : list Event) :
  file_protocol st (l1 ++ l2)
  = file_protocol st l1 ≫= fun st' => file_protocol st' l2.
Proof.
  revert st. induction l1 as [|ev l1 IH]; intros st; [reflexivity|].
  simpl. destruct (file_step st ev) as [st'|]; [apply IH | reflexivity].
Qed.

Lemma file_protocol_reads (k : nat) :
  file_protocol Opened (replicate k EvReadTime) = Some Opened.
Proof. induction k as [|k IH]; [reflexivity | exact IH]. Qed.

Lemma file_protocol_time_axis (k : nat) (post : list Event) :
  file_protocol NotOpened (time_axis_events k ++ post)
  = file_protocol Opened post.
Proof.
  unfold time_axis_events. rewrite <- app_assoc.
  change (file_protocol Opened (replicate k EvReadTime ++ post)
          = file_protocol Opened post).
  rewrite file_protocol_app, file_protocol_reads. reflexivity.
Qed.

(** The Land script on a well-formed file, up to the plot. *)
Lemma land_time_axis (ERA5 : Dataset) :
  time ERA5 <> [] ->
  StronglySorted Z.lt (time ERA5) ->
  Forall (has_row ERA5_Land_To_SHETRAN.ERA5DateIndex) (time ERA5) ->
  time_axis ERA5_Land_To_SHETRAN.variant ERA5
  = OK (mkGlobals (add_hours epoch <$> time ERA5) 0
                  (Z.of_nat (length (time ERA5)) - 1)).
Proof.
  intros Hne Hsort Hall.
  destruct (land_resolved (time ERA5) Hne Hsort Hall)
    as (StartTime & EndTime & Hres & Hb & _ & _ & Hs & He).
  unfold time_axis.
  change (build_ERA5DateIndex (calendar_end ERA5_Land_To_SHETRAN.variant))
    with ERA5_Land_To_SHETRAN.ERA5DateIndex.
  rewrite Hres, bind_OK, Hb, bind_OK. cbn [fst snd].
  rewrite Hs, bind_OK, He, bind_OK. reflexivity.
Qed.

Lemma sample_file_time_axis :
  time_axis ERA5_Land_To_SHETRAN.variant sample_file
  = OK (mkGlobals (add_hours epoch <$> time sample_file) 0 2).
Proof.
  apply (land_time_axis sample_file).
  - discriminate.
  - repeat constructor; lia.
  - simpl. repeat (apply Forall_cons; split; [apply has_row_2030; lia|]).
    apply Forall_nil. exact I.
Qed.

Lemma sample_run_plot_fails :
  exists k,
    run env_plot_fails ERA5_Land_To_SHETRAN.variant
    = (Raise RuntimeError, mkWorld true (time_axis_events k ++ [EvPlot])).
Proof.
  destruct (run_outcome env_plot_fails ERA5_Land_To_SHETRAN.variant
              sample_file eq_refl) as (k & _ & Hrun).
  exists k. rewrite Hrun. unfold outcome. rewrite sample_file_time_axis.
  reflexivity.
Qed.

Lemma sample_run_ok :
  exists k,
    run env_ok ERA5_Land_To_SHETRAN.variant
    = (OK (mkGlobals (add_hours epoch <$> time sample_file) 0 2),
       mkWorld false (time_axis_events k ++ [EvPlot; EvConvert; EvClose])).
Proof.
  destruct (run_outcome env_ok ERA5_Land_To_SHETRAN.variant
              sample_file eq_refl) as (k & _ & Hrun).
  exists k. rewrite Hrun. unfold outcome. rewrite sample_file_time_axis.
  reflexivity.
Qed.

(** ** The plotter and the converter *)

(** C7, as the claim has it, fails: in this run the plotter is called and
    raises, and the conversion stage is never executed. *)
Lemma plotter_failure_skips_conversion :
  plotter_fails env_plot_fails ERA5_Land_To_SHETRAN.variant /\
  ~ conversion_executes env_plot_fails ERA5_Land_To_SHETRAN.variant.
Proof.
  destruct sample_run_plot_fails as [k Hrun].
  unfold plotter_fails, conversion_executes. rewrite Hrun. cbn [snd trace].
  split; [split|].
  - apply elem_of_app. right. apply list_elem_of_here.
  - exists sample_file, RuntimeError. split; reflexivity.
  - intros Hin. trace_mem.
Qed.

(** C7, as the code has it: the plotter runs strictly before the converter
    and never between its steps; an exception of the plotter ends the run, so
    that the conversion stage is executed exactly in the runs in which the
    plotter was called and returned. *)
Theorem plotter_failure_ends_run (env : Env) (v : Variant) :
  (plotter_fails env v ->
     raises (run env v).1 /\ ~ conversion_executes env v) /\
  stages_in_order (trace (run env v).2) /\
  (conversion_executes env v ->
     exists ERA5,
       env_open env (DirectoryIn v +:+ FileNameIn v +:+ ExtIn) = OK ERA5 /\
       env_NetCDFPlotter env ERA5 = OK ()) /\
  (forall ERA5,
     env_open env (DirectoryIn v +:+ FileNameIn v +:+ ExtIn) = OK ERA5 ->
     env_NetCDFPlotter env ERA5 = OK () ->
     EvPlot ∈ trace (run env v).2 ->
     conversion_executes env v).
Proof.
  unfold plotter_fails, conversion_executes, stages_in_order.
  destruct (run_cases env v) as [(e & Hopen & Hrun) | (ERA5 & k & Hopen & Hrun)];
    rewrite Hrun.
  - cbn [fst snd trace World0]. split; [|split; [|split]].
    + intros [Hin _]. trace_mem.
    + exists [], []. split; [reflexivity|].
      repeat split; try apply not_elem_of_nil. by left.
    + intros Hin. trace_mem.
    + intros ERA5 Hopen'. congruence.
  - unfold outcome.
    assert (Hpre : forall ev, ev = EvPlot \/ ev = EvConvert \/ ev = EvClose ->
                              ev ∉ time_axis_events k).
    { intros ev Hev Hin. apply time_axis_events_only in Hin.
      destruct Hev as [-> | [-> | ->]], Hin as [? | [? | ?]]; discriminate. }
    destruct (time_axis v ERA5) as [g|e1].
    + destruct (env_NetCDFPlotter env ERA5) as [[]|e2] eqn:Hplot.
      * destruct (env_NetCDFToSHETRAN env ERA5) as [[]|e3];
          cbn [fst snd trace]; (split; [|split; [|split]]).
        -- intros [_ (ERA5' & e & Hopen' & Hfail)]. congruence.
        -- exists (time_axis_events k), [EvPlot; EvConvert; EvClose].
           split; [reflexivity|]. repeat split; try (apply Hpre; tauto). tauto.
        -- intros _. eauto.
        -- intros _ _ _ _. apply elem_of_app. right.
           apply list_elem_of_further, list_elem_of_here.
        -- intros [_ (ERA5' & e & Hopen' & Hfail)]. congruence.
        -- exists (time_axis_events k), [EvPlot; EvConvert].
           split; [reflexivity|]. repeat split; try (apply Hpre; tauto). tauto.
        -- intros _. eauto.
        -- intros _ _ _ _. apply elem_of_app. right.
           apply list_elem_of_further, list_elem_of_here.
      * cbn [fst snd trace]. split; [|split; [|split]].
        -- intros _. split; [exact I|]. intros Hin. trace_mem.
        -- exists (time_axis_events k), [EvPlot].
           split; [reflexivity|]. repeat split; try (apply Hpre; tauto). tauto.
        -- intros Hin. trace_mem.
        -- intros ERA5' Hopen' Hok. congruence.
    + cbn [fst snd trace]. split; [|split; [|split]].
      * intros [Hin _]. trace_mem.
      * exists (time_axis_events k), [].
        split; [by rewrite app_nil_r|].
        repeat split; try (apply Hpre; tauto). tauto.
      * intros Hin. trace_mem.
      * intros ERA5' _ _ Hin. trace_mem.
Qed.

Lemma plotter_failure_ends_run_witness :
  (raises (run env_plot_fails ERA5_Land_To_SHETRAN.variant).1 /\
   ~ conversion_executes env_plot_fails ERA5_Land_To_SHETRAN.variant) /\
  conversion_executes env_ok ERA5_Land_To_SHETRAN.variant.
Proof.
  split.
  - apply (plotter_failure_ends_run env_plot_fails ERA5_Land_To_SHETRAN.variant).
    destruct sample_run_plot_fails as [k Hrun].
    unfold plotter_fails. rewrite Hrun. cbn [snd trace]. split.
    + apply elem_of_app. right. apply list_elem_of_here.
    + exists sample_file, RuntimeError. split; reflexivity.
  - destruct (plotter_failure_ends_run env_ok ERA5_Land_To_SHETRAN.variant)
      as (_ & _ & _ & Hconv).
    apply (Hconv sample_file eq_refl eq_refl).
    destruct sample_run_ok as [k Hrun]. rewrite Hrun. cbn [snd trace].
    apply elem_of_app. right. apply list_elem_of_here.
Defined.

(** ** The input file *)

(** C9: in every run the file is opened before anything else, used only
    while it is open, and not touched after its release; in the runs in
    which both stages complete, the trace is the opening, the reads of the
    time variable, the plot, the conversion and, last and once, the release.
    The release is reached in no other run. *)
Theorem file_opened_once_released_last (env : Env) (v : Variant) :
  (exists st,
     file_protocol NotOpened (trace (run env v).2) = Some st /\
     (st = Opened <-> is_open (run env v).2 = true)) /\
  (forall g, (run env v).1 = OK g ->
     exists k,
       trace (run env v).2
         = time_axis_events k ++ [EvPlot; EvConvert; EvClose] /\
       occurrences EvOpen (trace (run env v).2) = 1%nat /\
       occurrences EvClose (trace (run env v).2) = 1%nat /\
       file_protocol NotOpened (trace (run env v).2) = Some Released /\
       is_open (run env v).2 = false) /\
  (EvClose ∈ trace (run env v).2 -> exists g, (run env v).1 = OK g).
Proof.
  destruct (run_cases env v) as [(e & Hopen & Hrun) | (ERA5 & k & Hopen & Hrun)];
    rewrite Hrun.
  - cbn [fst snd trace is_open World0]. split; [|split].
    + exists NotOpened. split; [reflexivity|]. split; discriminate.
    + intros g Hg. discriminate.
    + intros Hin. trace_mem.
  - unfold outcome.
    destruct (time_axis v ERA5) as [g|e1];
      [destruct (env_NetCDFPlotter env ERA5) as [[]|e2];
       [destruct (env_NetCDFToSHETRAN env ERA5) as [[]|e3]|]|];
      cbn [fst snd trace is_open]; (split; [|split]);
      try (intros g' Hg; discriminate Hg);
      try (intros Hin; trace_mem; fail).
    + exists Released. split; [by rewrite file_protocol_time_axis|].
      split; discriminate.
    + intros g' _. exists k. split; [reflexivity|].
      rewrite file_protocol_time_axis. unfold time_axis_events.
      rewrite !occurrences_app, !occurrences_reads by discriminate.
      repeat split; reflexivity.
    + intros _. eauto.
    + exists Opened. split; [by rewrite file_protocol_time_axis | done].
    + exists Opened. split; [by rewrite file_protocol_time_axis | done].
    + exists Opened. split; [|done].
      rewrite <- (app_nil_r (time_axis_events k)).
      by rewrite file_protocol_time_axis.
Qed.

Lemma file_opened_once_released_last_witness :
  exists k,
    trace (run env_ok ERA5_Land_To_SHETRAN.variant).2
      = time_axis_events k ++ [EvPlot; EvConvert; EvClose] /\
    occurrences EvOpen (trace (run env_ok ERA5_Land_To_SHETRAN.variant).2) = 1%nat /\
    occurrences EvClose (trace (run env_ok ERA5_Land_To_SHETRAN.variant).2) = 1%nat /\
    file_protocol NotOpened (trace (run env_ok ERA5_Land_To_SHETRAN.variant).2)
      = Some Released /\
    is_open (run env_ok ERA5_Land_To_SHETRAN.variant).2 = false.
Proof.
  destruct (file_opened_once_released_last env_ok ERA5_Land_To_SHETRAN.variant)
    as (_ & Hdone & _).
  apply (Hdone (mkGlobals (add_hours epoch <$> time sample_file) 0 2)).
  destruct sample_run_ok as [k Hrun]. rewrite Hrun. reflexivity.
Defined.

(** ** The shape of the output table *)

Section TableShape.

Import Converter.








Variable Data : Dataset.





End TableShape.



(** * Further properties of the scripts *)

(** ** The resolver loop, in full *)

Lemma TimeIndex_loop_OK_rows (end_ : string) (times : list Z) :
  script_end end_ ->
  forall TimeIndex tsl,
    TimeIndex_loop (build_ERA5DateIndex end_) TimeIndex times = OK tsl ->
    Forall (has_row (build_ERA5DateIndex end_)) times.
Proof.
  intros He. induction times as [|t rest IH]; intros TimeIndex tsl Hrun;
    [constructor|].
  cbn [TimeIndex_loop] in Hrun.
  destruct (decide (has_row (build_ERA5DateIndex end_) t)) as [Hr|Hr].
  - rewrite TimeIndex_append_in, bind_OK in Hrun by done.
    constructor; [exact Hr | by eapply IH].
  - rewrite TimeIndex_append_out, bind_Raise in Hrun by done. discriminate.
Qed.

Lemma resolve_OK_iff (end_ : string) (times : list Z) (tsl : list Timestamp) :
  script_end end_ ->
  resolve_TimeIndex (build_ERA5DateIndex end_) times = OK tsl <->
  Forall (has_row (build_ERA5DateIndex end_)) times /\
  tsl = add_hours epoch <$> times.
Proof.
  intros He. unfold resolve_TimeIndex. split.
  - intros Hrun.
    pose proof (TimeIndex_loop_OK_rows end_ times He [] tsl Hrun) as Hall.
    split; [exact Hall|].
    rewrite TimeIndex_loop_in in Hrun by done. by injection Hrun as <-.
  - intros [Hall ->]. by rewrite TimeIndex_loop_in.
Qed.

Lemma resolve_Raise_iff (end_ : string) (times : list Z) (e : PyErr) :
  script_end end_ ->
  resolve_TimeIndex (build_ERA5DateIndex end_) times = Raise e <->
  e = KeyError /\
  Exists (fun t => ~ has_row (build_ERA5DateIndex end_) t) times.
Proof.
  intros He. unfold resolve_TimeIndex. split.
  - intros Hrun.
    destruct (List.Forall_Exists_dec (has_row (build_ERA5DateIndex end_))
                (fun t => decide (has_row (build_ERA5DateIndex end_) t)) times)
      as [Hall|Hex].
    + rewrite TimeIndex_loop_in in Hrun by done. discriminate.
    + rewrite TimeIndex_loop_out in Hrun by done. by injection Hrun as <-.
  - intros [-> Hex]. by apply TimeIndex_loop_out.
Qed.

(** The loop over the time variable returns exactly when every time-step
    labels a row of the reference calendar, and then returns the epoch plus
    each time-step, in the order of the file; otherwise it raises, and what
    it raises is [KeyError]. *)
Theorem resolve_TimeIndex_spec (end_ : string) (times : list Z) :
  script_end end_ ->
  (forall tsl,
     resolve_TimeIndex (build_ERA5DateIndex end_) times = OK tsl <->
     Forall (has_row (build_ERA5DateIndex end_)) times /\
     tsl = add_hours epoch <$> times) /\
  (forall e,
     resolve_TimeIndex (build_ERA5DateIndex end_) times = Raise e <->
     e = KeyError /\
     Exists (fun t => ~ has_row (build_ERA5DateIndex end_) t) times).
Proof.
  intros He. split.
  - intros tsl. by apply resolve_OK_iff.
  - intros e. by apply resolve_Raise_iff.
Qed.

Lemma resolve_TimeIndex_spec_witness :
  resolve_TimeIndex ERA5_To_SHETRAN.ERA5DateIndex [876600; 876576]
    = OK (add_hours epoch <$> [876600; 876576]) /\
  resolve_TimeIndex ERA5_To_SHETRAN.ERA5DateIndex [876576; -1] = Raise KeyError.
Proof.
  pose proof (resolve_TimeIndex_spec (calendar_end ERA5_To_SHETRAN.variant)
                [876600; 876576] (or_introl eq_refl)) as [Hok _].
  pose proof (resolve_TimeIndex_spec (calendar_end ERA5_To_SHETRAN.variant)
                [876576; -1] (or_introl eq_refl)) as [_ Hfail].
  split.
  - apply Hok. split; [|reflexivity].
    repeat (apply Forall_cons; split; [apply has_row_2022; lia|]).
    apply Forall_nil. exact I.
  - apply Hfail. split; [reflexivity|].
    apply Exists_cons_tl, Exists_cons_hd. rewrite has_row_2022. lia.
Defined.

Lemma increasing_NoDup (l : list Z) : StronglySorted Z.lt l -> NoDup l.
Proof.
  induction 1 as [|x l _ IH Hall]; [constructor|].
  apply NoDup_cons. split; [|exact IH].
  intros Hin. rewrite Forall_forall in Hall. specialize (Hall x Hin). lia.
Qed.

(** Strictly increasing time-steps resolve to strictly increasing
    timestamps: the resolved sequence has no timestamp twice, and position
    [i] of it comes from position [i] of the file. *)
Theorem resolved_increasing (end_ : string) (times : list Z) (tsl : list Timestamp) :
  script_end end_ ->
  StronglySorted Z.lt times ->
  resolve_TimeIndex (build_ERA5DateIndex end_) times = OK tsl ->
  StronglySorted (fun a b => value a < value b) tsl /\
  NoDup tsl /\
  length tsl = length times.
Proof.
  intros He Hsort Hrun. unfold resolve_TimeIndex in Hrun.
  pose proof (TimeIndex_loop_OK_rows end_ times He [] tsl Hrun) as Hall.
  rewrite TimeIndex_loop_in in Hrun by done. injection Hrun as <-.
  split; [|split].
  - apply (StronglySorted_fmap _ Z.lt); [|exact Hsort].
    intros x y Hxy. unfold add_hours, NANOS_PER_HOUR, NANOS_PER_SECOND. simpl. lia.
  - apply NoDup_fmap_2; [|by apply increasing_NoDup].
    intros x y Hxy. by apply add_hours_inj in Hxy.
  - by rewrite length_fmap.
Qed.

Lemma resolved_increasing_witness :
  StronglySorted (fun a b => value a < value b)
    (add_hours epoch <$> time sample_file) /\
  NoDup (add_hours epoch <$> time sample_file) /\
  length (add_hours epoch <$> time sample_file) = length (time sample_file).
Proof.
  apply (resolved_increasing (calendar_end ERA5_Land_To_SHETRAN.variant)
           (time sample_file)).
  - right. reflexivity.
  - repeat constructor; lia.
  - apply (resolve_OK_iff (calendar_end ERA5_Land_To_SHETRAN.variant)
             (time sample_file) _ (or_intror eq_refl)).
    split; [|reflexivity]. simpl.
    repeat (apply Forall_cons; split; [apply has_row_2030; lia|]).
    apply Forall_nil. exact I.
Defined.

(** ** The two reference calendars against each other *)

(** Whatever the script with the calendar to 2022 resolves, the script with
    the calendar to 2030 resolves to the same timestamps; the time-steps
    after 2022-01-01 00:00:00 and up to 2030-01-01 00:00:00 are resolved by
    the second and raise [KeyError] in the first. *)
Theorem calendars_agree (times : list Z) :
  (forall tsl,
     resolve_TimeIndex ERA5_To_SHETRAN.ERA5DateIndex times = OK tsl ->
     resolve_TimeIndex ERA5_Land_To_SHETRAN.ERA5DateIndex times = OK tsl) /\
  (forall t, t ∈ times -> 1069440 < t ->
     Forall (fun t' => 0 <= t' <= 1139568) times ->
     resolve_TimeIndex ERA5_To_SHETRAN.ERA5DateIndex times = Raise KeyError /\
     resolve_TimeIndex ERA5_Land_To_SHETRAN.ERA5DateIndex times
       = OK (add_hours epoch <$> times)).
Proof.
  assert (He22 : script_end (calendar_end ERA5_To_SHETRAN.variant)) by (by left).
  assert (He30 : script_end (calendar_end ERA5_Land_To_SHETRAN.variant))
    by (by right).
  split.
  - intros tsl Hrun.
    apply (resolve_OK_iff _ times _ He22) in Hrun as [Hall ->].
    apply (resolve_OK_iff _ times _ He30). split; [|reflexivity].
    eapply Forall_impl; [exact Hall|]. intros t Ht.
    apply has_row_2022 in Ht. apply has_row_2030. lia.
  - intros t Hin Hbig Hall. split.
    + apply (resolve_Raise_iff _ times _ He22). split; [reflexivity|].
      apply Exists_exists. exists t. split; [exact Hin|].
      rewrite has_row_calendar, last_label_2022 by done. lia.
    + apply (resolve_OK_iff _ times _ He30). split; [|reflexivity].
      eapply Forall_impl; [exact Hall|]. intros t' Ht'. by apply has_row_2030.
Qed.

Lemma calendars_agree_witness :
  resolve_TimeIndex ERA5_Land_To_SHETRAN.ERA5DateIndex [876576]
    = OK (add_hours epoch <$> [876576]) /\
  resolve_TimeIndex ERA5_To_SHETRAN.ERA5DateIndex [1069416; 1069441]
    = Raise KeyError /\
  resolve_TimeIndex ERA5_Land_To_SHETRAN.ERA5DateIndex [1069416; 1069441]
    = OK (add_hours epoch <$> [1069416; 1069441]).
Proof.
  split.
  - apply (calendars_agree [876576]).
    apply (resolve_OK_iff (calendar_end ERA5_To_SHETRAN.variant)
             [876576] _ (or_introl eq_refl)).
    split; [|reflexivity].
    apply Forall_cons; split; [apply has_row_2022; lia|]. apply Forall_nil. exact I.
  - apply (calendars_agree [1069416; 1069441] ) with (t := 1069441).
    + apply list_elem_of_further, list_elem_of_here.
    + lia.
    + repeat (apply Forall_cons; split; [lia|]). apply Forall_nil. exact I.
Defined.

(** ** Runs, turn by turn *)

Lemma loc_has_row (df : DataFrame) (t : Z) :
  has_row df t -> exists ts, loc df t = OK ts.
Proof.
  intros Hr. unfold loc. rewrite decide_True by done.
  destruct (lookup_lt_is_Some_2 (column df) (Z.to_nat t)) as [ts Hts].
  { unfold has_row, len in Hr. lia. }
  rewrite Hts. eauto.
Qed.

Lemma loc_no_row (df : DataFrame) (t : Z) :
  ~ has_row df t -> loc df t = Raise KeyError.
Proof. intros Hr. unfold loc. by rewrite decide_False. Qed.

(** The loop of a script reads the file once a turn and takes [turns]
    turns. *)
Lemma for_range_turns (ERA5DateIndex : DataFrame) (ERA5 : Dataset) (rest : list Z) :
  forall (pre : list Z) (TimeIndex : list Timestamp) (tr : list Event),
    time ERA5 = pre ++ rest ->
    for_range ERA5DateIndex ERA5 TimeIndex
      (seqZ (Z.of_nat (length pre)) (Z.of_nat (length rest))) (mkWorld true tr)
    = (TimeIndex_loop ERA5DateIndex TimeIndex rest,
       mkWorld true (tr ++ replicate (turns ERA5DateIndex rest) EvReadTime)).
Proof.
  induction rest as [|t rest IH]; intros pre TimeIndex tr Htime.
  - simpl. by rewrite app_nil_r.
  - simpl length. rewrite seqZ_cons by lia.
    replace (Z.pred (Z.of_nat (S (length rest)))) with (Z.of_nat (length rest)) by lia.
    cbn [for_range TimeIndex_loop turns]. rewrite bind_run.
    unfold loop_turn at 1. rewrite bind_run, access_open.
    rewrite bind_run. unfold lift at 1. rewrite Htime, py_getitem_middle.
    unfold lift at 1. unfold TimeIndex_append.
    destruct (decide (has_row ERA5DateIndex t)) as [Hr|Hr].
    + destruct (loc_has_row _ _ Hr) as [ts ->]. rewrite !bind_OK.
      change (mret (TimeIndex ++ [ts]) : Result (list Timestamp))
        with (OK (TimeIndex ++ [ts])).
      specialize (IH (pre ++ [t]) (TimeIndex ++ [ts]) (tr ++ [EvReadTime])).
      rewrite length_app in IH. simpl length in IH.
      replace (Z.succ (Z.of_nat (length pre)))
        with (Z.of_nat (length pre + 1)) by lia.
      rewrite IH by (by rewrite <- app_assoc).
      by rewrite <- app_assoc.
    + rewrite (loc_no_row _ _ Hr). reflexivity.
Qed.

Lemma turns_all (df : DataFrame) (times : list Z) :
  Forall (has_row df) times -> turns df times = length times.
Proof.
  induction 1 as [|t rest Ht _ IH]; [reflexivity|].
  cbn [turns]. rewrite decide_True by done. simpl. by rewrite IH.
Qed.

Lemma turns_stop (df : DataFrame) (good : list Z) (t : Z) (post : list Z) :
  Forall (has_row df) good -> ~ has_row df t ->
  turns df (good ++ t :: post) = S (length good).
Proof.
  induction 1 as [|g good Hg _ IH]; intros Ht.
  - cbn [app turns]. by rewrite decide_False.
  - cbn [app turns]. rewrite decide_True by done. simpl. by rewrite IH.
Qed.

(** A run on a file that opens ends as [outcome] says, after [turns]
    turns of the loop. *)
Lemma run_turns (env : Env) (v : Variant) (ERA5 : Dataset) :
  env_open env (DirectoryIn v +:+ FileNameIn v +:+ ExtIn) = OK ERA5 ->
  run env v
  = outcome env v ERA5 (turns (build_ERA5DateIndex (calendar_end v)) (time ERA5)).
Proof.
  intros Hopen.
  pose proof (for_range_turns (build_ERA5DateIndex (calendar_end v)) ERA5
                (time ERA5) [] []
                [EvOpen; EvVariables; EvVariables; EvReadTime] eq_refl) as Hloop.
  set (k := turns (build_ERA5DateIndex (calendar_end v)) (time ERA5)) in *.
  unfold run, main, outcome, time_axis, resolve_TimeIndex.
  rewrite bind_run. unfold Dataset_open at 1. rewrite Hopen.
  unfold World0. cbn [trace app].
  do 3 (rewrite bind_run, access_open; cbn [app]).
  rewrite bind_run.
  change (Z.of_nat (length (@nil Z))) with 0 in Hloop.
  rewrite Hloop.
  fold (time_axis_events k).
  destruct (TimeIndex_loop _ [] (time ERA5)) as [TimeIndex|e]; [|reflexivity].
  rewrite bind_OK, bind_run. unfold lift at 1.
  destruct (boundary_times v TimeIndex) as [bounds|e]; [|reflexivity].
  rewrite bind_OK, bind_run. unfold lift at 1.
  destruct (boundary_index _ bounds.1) as [StartIdx|e]; [|reflexivity].
  rewrite bind_OK, bind_run. unfold lift at 1.
  destruct (boundary_index _ bounds.2) as [EndIdx|e]; [|reflexivity].
  rewrite bind_OK.
  rewrite bind_run. unfold NetCDFPlotter at 1.
  rewrite bind_run, access_open. unfold lift at 1.
  destruct (env_NetCDFPlotter env ERA5) as [[]|e]; [|reflexivity].
  rewrite bind_run. unfold NetCDFToSHETRAN at 1.
  rewrite bind_run, access_open. unfold lift at 1.
  destruct (env_NetCDFToSHETRAN env ERA5) as [[]|e];
    [|by rewrite <- app_assoc].
  rewrite bind_run. unfold Dataset_close at 1.
  rewrite bind_run, access_open.
  unfold set_closed. cbn [trace mret Script_ret].
  by rewrite <- !app_assoc.
Qed.

(** When the statements on the time axis raise, the run ends there: no
    stage, no release. *)
Lemma run_time_axis_raises (env : Env) (v : Variant) (ERA5 : Dataset) (e : PyErr) :
  env_open env (DirectoryIn v +:+ FileNameIn v +:+ ExtIn) = OK ERA5 ->
  time_axis v ERA5 = Raise e ->
  run env v
  = (Raise e,
     mkWorld true
       (time_axis_events
          (turns (build_ERA5DateIndex (calendar_end v)) (time ERA5)))).
Proof.
  intros Hopen Haxis. rewrite (run_turns env v ERA5 Hopen).
  unfold outcome. by rewrite Haxis.
Qed.

(** When they return, the plotter is called, and the run returns their
    globals if both stages do. *)
Lemma run_time_axis_returns (env : Env) (v : Variant) (ERA5 : Dataset) (g : Globals) :
  env_open env (DirectoryIn v +:+ FileNameIn v +:+ ExtIn) = OK ERA5 ->
  time_axis v ERA5 = OK g ->
  EvPlot ∈ trace (run env v).2 /\
  (env_NetCDFPlotter env ERA5 = OK () ->
   env_NetCDFToSHETRAN env ERA5 = OK () ->
   (run env v).1 = OK g).
Proof.
  intros Hopen Haxis. rewrite (run_turns env v ERA5 Hopen).
  unfold outcome. rewrite Haxis. split.
  - destruct (env_NetCDFPlotter env ERA5) as [[]|e1];
      [destruct (env_NetCDFToSHETRAN env ERA5) as [[]|e2]|];
      cbn [snd trace]; apply elem_of_app; right; apply list_elem_of_here.
  - intros -> ->. reflexivity.
Qed.

(** ** Boundaries of a resolved sequence *)

Lemma StartTime_step :
  Timestamp_of_string ERA5_To_SHETRAN.StartTime = add_hours epoch 876576.
Proof. vm_compute. reflexivity. Qed.

Lemma EndTime_step :
  Timestamp_of_string ERA5_To_SHETRAN.EndTime = add_hours epoch 964248.
Proof. vm_compute. reflexivity. Qed.

Lemma resolved_elem (times : list Z) (t : Z) :
  add_hours epoch t ∈ add_hours epoch <$> times <-> t ∈ times.
Proof.
  rewrite list_elem_of_fmap. split.
  - intros (t' & Heq & Hin). apply add_hours_inj in Heq. by subst.
  - intros Hin. eauto.
Qed.

Lemma boundary_resolved_absent (times : list Z) (t : Z) :
  t ∉ times ->
  boundary_index (build_DfTimeIndex (add_hours epoch <$> times)) (add_hours epoch t)
  = Raise IndexError.
Proof.
  intros Hno. apply boundary_index_absent. simpl. by rewrite resolved_elem.
Qed.

Lemma boundary_resolved_present (times : list Z) (t : Z) :
  t ∈ times ->
  exists i : nat,
    boundary_index (build_DfTimeIndex (add_hours epoch <$> times))
                   (add_hours epoch t) = OK (Z.of_nat i) /\
    times !! i = Some t /\
    forall j : nat, (j < i)%nat -> times !! j <> Some t.
Proof.
  intros Hin.
  destruct (boundary_index_present
              (build_DfTimeIndex (add_hours epoch <$> times)) (add_hours epoch t))
    as [k Hk]; [simpl; by rewrite resolved_elem|].
  destruct (boundary_index_OK _ _ _ Hk) as (i & -> & Hi & Hfirst).
  simpl in Hi, Hfirst. rewrite list_lookup_fmap in Hi.
  apply fmap_Some in Hi as (t' & Hi & Heq). apply add_hours_inj in Heq. subst t'.
  exists i. split; [exact Hk|]. split; [exact Hi|].
  intros j Hj Hjt. apply (Hfirst j (add_hours epoch t)); [|exact Hj|reflexivity].
  by rewrite list_lookup_fmap, Hjt.
Qed.

Lemma boundary_resolved_sorted (times : list Z) (t : Z) (i : nat) :
  StronglySorted Z.lt times ->
  times !! i = Some t ->
  boundary_index (build_DfTimeIndex (add_hours epoch <$> times)) (add_hours epoch t)
  = OK (Z.of_nat i).
Proof.
  intros Hsort Hi.
  destruct (boundary_resolved_present times t) as (i' & Hk & Hi' & _).
  { by eapply list_elem_of_lookup_2. }
  rewrite Hk. do 2 f_equal.
  eapply NoDup_lookup; [by apply increasing_NoDup | exact Hi' | exact Hi].
Qed.

(** ** [ERA5-To-SHETRAN.py]: the written-out window *)

(** On a file with strictly increasing time-steps inside the calendar that
    holds 2000-01-01 00:00:00 at position [i] and 2010-01-01 00:00:00 at
    position [j], the script gets [StartIdx = i] and [EndIdx = j] with
    [i < j], and goes on to the plotter. *)
Theorem era5_window_indices (env : Env) (ERA5 : Dataset) (i j : nat) :
  env_open env (DirectoryIn ERA5_To_SHETRAN.variant
                +:+ FileNameIn ERA5_To_SHETRAN.variant +:+ ExtIn) = OK ERA5 ->
  StronglySorted Z.lt (time ERA5) ->
  Forall (has_row ERA5_To_SHETRAN.ERA5DateIndex) (time ERA5) ->
  time ERA5 !! i = Some 876576 ->
  time ERA5 !! j = Some 964248 ->
  (i < j)%nat /\
  EvPlot ∈ trace (run env ERA5_To_SHETRAN.variant).2 /\
  (env_NetCDFPlotter env ERA5 = OK () ->
   env_NetCDFToSHETRAN env ERA5 = OK () ->
   (run env ERA5_To_SHETRAN.variant).1
   = OK (mkGlobals (add_hours epoch <$> time ERA5) (Z.of_nat i) (Z.of_nat j))).
Proof.
  intros Hopen Hsort Hall Hi Hj. split.
  - destruct (decide (i < j)%nat) as [|Hge]; [done|].
    destruct (decide (i = j)) as [->|Hne]; [congruence|].
    assert (Hlt : (j < i)%nat) by lia.
    pose proof (increasing_lookup _ _ _ _ _ Hsort Hj Hi Hlt). lia.
  - apply (run_time_axis_returns env ERA5_To_SHETRAN.variant ERA5); [exact Hopen|].
    unfold time_axis.
    change (build_ERA5DateIndex (calendar_end ERA5_To_SHETRAN.variant))
      with ERA5_To_SHETRAN.ERA5DateIndex.
    assert (Hres : resolve_TimeIndex ERA5_To_SHETRAN.ERA5DateIndex (time ERA5)
                   = OK (add_hours epoch <$> time ERA5)).
    { apply (resolve_OK_iff _ _ _ (or_introl eq_refl)). by split. }
    rewrite Hres, bind_OK.
    cbn [boundary_times ERA5_To_SHETRAN.variant]. rewrite bind_OK. cbn [fst snd].
    rewrite StartTime_step, EndTime_step.
    rewrite (boundary_resolved_sorted _ _ i Hsort Hi), bind_OK.
    rewrite (boundary_resolved_sorted _ _ j Hsort Hj), bind_OK.
    reflexivity.
Qed.

Lemma era5_window_indices_witness :
  (0 < 1)%nat /\
  EvPlot ∈ trace (run (env_on decade_file) ERA5_To_SHETRAN.variant).2 /\
  (run (env_on decade_file) ERA5_To_SHETRAN.variant).1
  = OK (mkGlobals (add_hours epoch <$> time decade_file)
                  (Z.of_nat 0) (Z.of_nat 1)).
Proof.
  destruct (era5_window_indices (env_on decade_file) decade_file 0 1)
    as (Hlt & Hplot & Hrun).
  - reflexivity.
  - repeat constructor; lia.
  - simpl. repeat (apply Forall_cons; split; [apply has_row_2022; lia|]).
    apply Forall_nil. exact I.
  - reflexivity.
  - reflexivity.
  - split; [exact Hlt|]. split; [exact Hplot|]. by apply Hrun.
Defined.

(** On a file inside the calendar that lacks 2000-01-01 00:00:00 or
    2010-01-01 00:00:00, the script raises [IndexError] once the loop is
    through: the plotter and the converter are not called and the file is
    left open. *)
Theorem era5_missing_boundary (env : Env) (ERA5 : Dataset) :
  env_open env (DirectoryIn ERA5_To_SHETRAN.variant
                +:+ FileNameIn ERA5_To_SHETRAN.variant +:+ ExtIn) = OK ERA5 ->
  Forall (has_row ERA5_To_SHETRAN.ERA5DateIndex) (time ERA5) ->
  876576 ∉ time ERA5 \/ 964248 ∉ time ERA5 ->
  run env ERA5_To_SHETRAN.variant
  = (Raise IndexError,
     mkWorld true (time_axis_events (length (time ERA5)))).
Proof.
  intros Hopen Hall Hmiss.
  rewrite <- (turns_all ERA5_To_SHETRAN.ERA5DateIndex (time ERA5) Hall).
  apply (run_time_axis_raises env ERA5_To_SHETRAN.variant ERA5); [exact Hopen|].
  unfold time_axis.
  change (build_ERA5DateIndex (calendar_end ERA5_To_SHETRAN.variant))
    with ERA5_To_SHETRAN.ERA5DateIndex.
  assert (Hres : resolve_TimeIndex ERA5_To_SHETRAN.ERA5DateIndex (time ERA5)
                 = OK (add_hours epoch <$> time ERA5)).
  { apply (resolve_OK_iff _ _ _ (or_introl eq_refl)). by split. }
  rewrite Hres, bind_OK.
  cbn [boundary_times ERA5_To_SHETRAN.variant]. rewrite bind_OK. cbn [fst snd].
  rewrite StartTime_step, EndTime_step.
  destruct (decide (876576 ∈ time ERA5)) as [Hin|Hno].
  - destruct (boundary_resolved_present _ _ Hin) as (i & -> & _). rewrite bind_OK.
    destruct Hmiss as [Hno|Hno]; [contradiction|].
    by rewrite (boundary_resolved_absent _ _ Hno).
  - by rewrite (boundary_resolved_absent _ _ Hno).
Qed.

Lemma era5_missing_boundary_witness :
  run (env_on sample_file) ERA5_To_SHETRAN.variant
  = (Raise IndexError, mkWorld true (time_axis_events (length (time sample_file)))).
Proof.
  apply (era5_missing_boundary (env_on sample_file) sample_file).
  - reflexivity.
  - simpl. repeat (apply Forall_cons; split; [apply has_row_2022; lia|]).
    apply Forall_nil. exact I.
  - right. apply (bool_decide_unpack _). vm_compute. exact I.
Defined.

(** ** [ERA5-Land-To-SHETRAN.py]: the window taken from the file *)

(** On a file without time-steps the script raises [IndexError] at
    [TimeIndex[0]], right after reading the length of the time variable:
    no turn of the loop, no stage, and the file is left open. *)
Theorem land_empty_file (env : Env) (ERA5 : Dataset) :
  env_open env (DirectoryIn ERA5_Land_To_SHETRAN.variant
                +:+ FileNameIn ERA5_Land_To_SHETRAN.variant +:+ ExtIn) = OK ERA5 ->
  time ERA5 = [] ->
  run env ERA5_Land_To_SHETRAN.variant
  = (Raise IndexError,
     mkWorld true [EvOpen; EvVariables; EvVariables; EvReadTime]).
Proof.
  intros Hopen Hempty.
  rewrite (run_time_axis_raises env ERA5_Land_To_SHETRAN.variant ERA5 IndexError Hopen).
  - rewrite Hempty. reflexivity.
  - unfold time_axis, resolve_TimeIndex. rewrite Hempty. reflexivity.
Qed.

Lemma land_empty_file_witness :
  run (env_on empty_file) ERA5_Land_To_SHETRAN.variant
  = (Raise IndexError,
     mkWorld true [EvOpen; EvVariables; EvVariables; EvReadTime]).
Proof.
  apply (land_empty_file (env_on empty_file) empty_file); reflexivity.
Defined.

(** On any non-empty file inside the calendar, in whatever order its
    time-steps come, the script resolves both boundaries: [StartIdx] is 0
    and [EndIdx] is the first position that holds the last time-step, which
    is before the last position when that time-step occurs earlier. *)
Theorem land_window_any_order (env : Env) (ERA5 : Dataset) :
  env_open env (DirectoryIn ERA5_Land_To_SHETRAN.variant
                +:+ FileNameIn ERA5_Land_To_SHETRAN.variant +:+ ExtIn) = OK ERA5 ->
  time ERA5 <> [] ->
  Forall (has_row ERA5_Land_To_SHETRAN.ERA5DateIndex) (time ERA5) ->
  exists (EndIdx : nat) (tn : Z),
    last (time ERA5) = Some tn /\
    time ERA5 !! EndIdx = Some tn /\
    (forall j : nat, (j < EndIdx)%nat -> time ERA5 !! j <> Some tn) /\
    EvPlot ∈ trace (run env ERA5_Land_To_SHETRAN.variant).2 /\
    (env_NetCDFPlotter env ERA5 = OK () ->
     env_NetCDFToSHETRAN env ERA5 = OK () ->
     (run env ERA5_Land_To_SHETRAN.variant).1
     = OK (mkGlobals (add_hours epoch <$> time ERA5) 0 (Z.of_nat EndIdx))).
Proof.
  intros Hopen Hne Hall.
  destruct (time ERA5) as [|t0 rest] eqn:Htime; [done|].
  destruct (last (t0 :: rest)) as [tn|] eqn:Hlast;
    [|by apply last_None in Hlast].
  assert (Hin : tn ∈ t0 :: rest).
  { rewrite last_lookup in Hlast. by eapply list_elem_of_lookup_2. }
  destruct (boundary_resolved_present (t0 :: rest) tn Hin)
    as (EndIdx & HEnd & Hi & Hfirst).
  exists EndIdx, tn. split; [reflexivity|]. split; [exact Hi|].
  split; [exact Hfirst|].
  apply (run_time_axis_returns env ERA5_Land_To_SHETRAN.variant ERA5);
    [exact Hopen|].
  unfold time_axis.
  change (build_ERA5DateIndex (calendar_end ERA5_Land_To_SHETRAN.variant))
    with ERA5_Land_To_SHETRAN.ERA5DateIndex.
  rewrite Htime.
  assert (Hres : resolve_TimeIndex ERA5_Land_To_SHETRAN.ERA5DateIndex (t0 :: rest)
                 = OK (add_hours epoch <$> t0 :: rest)).
  { apply (resolve_OK_iff _ _ _ (or_intror eq_refl)). by split. }
  rewrite Hres, bind_OK.
  set (TimeIndex := add_hours epoch <$> t0 :: rest) in *.
  assert (Hl : last TimeIndex = Some (add_hours epoch tn)).
  { unfold TimeIndex. by rewrite fmap_last, Hlast. }
  assert (Hhd : py_getitem TimeIndex 0 = OK (add_hours epoch t0)).
  { unfold TimeIndex. by rewrite py_getitem_0. }
  cbn [boundary_times ERA5_Land_To_SHETRAN.variant].
  rewrite Hhd, (py_getitem_last _ _ Hl), !bind_OK. cbn [fst snd].
  rewrite (boundary_index_first _ (add_hours epoch t0) 0%nat);
    [|reflexivity | intros; lia].
  rewrite bind_OK, HEnd, bind_OK. reflexivity.
Qed.

Lemma land_window_any_order_witness :
  (run (env_on repeating_file) ERA5_Land_To_SHETRAN.variant).1
  = OK (mkGlobals (add_hours epoch <$> time repeating_file) 0 0).
Proof.
  destruct (land_window_any_order (env_on repeating_file) repeating_file)
    as (EndIdx & tn & Hlast & Hi & Hfirst & _ & Hrun).
  - reflexivity.
  - discriminate.
  - simpl. repeat (apply Forall_cons; split; [apply has_row_2030; lia|]).
    apply Forall_nil. exact I.
  - injection Hlast as <-.
    destruct EndIdx as [|n].
    + by apply Hrun.
    + exfalso. apply (Hfirst 0%nat); [lia | reflexivity].
Defined.

(** ** The first time-step without a row *)

Lemma TimeIndex_loop_stops (df : DataFrame) (good : list Z) (t : Z) (post : list Z) :
  Forall (has_row df) good -> ~ has_row df t ->
  forall TimeIndex,
    TimeIndex_loop df TimeIndex (good ++ t :: post) = Raise KeyError.
Proof.
  intros Hgood Ht. induction Hgood as [|g good Hg _ IH]; intros TimeIndex.
  - cbn [app TimeIndex_loop]. unfold TimeIndex_append.
    by rewrite (loc_no_row _ _ Ht).
  - cbn [app TimeIndex_loop]. unfold TimeIndex_append.
    destruct (loc_has_row _ _ Hg) as [ts ->]. rewrite !bind_OK. apply IH.
Qed.

(** In either script the loop stops at the first time-step that does not
    label a row of the reference calendar: the run raises [KeyError] after
    reading the time-steps up to that one, the later ones are not read,
    neither stage is called and the file is left open. *)
Theorem loop_stops_at_first_missing_row (env : Env) (v : Variant)
    (ERA5 : Dataset) (good : list Z) (t : Z) (post : list Z) :
  env_open env (DirectoryIn v +:+ FileNameIn v +:+ ExtIn) = OK ERA5 ->
  time ERA5 = good ++ t :: post ->
  Forall (has_row (build_ERA5DateIndex (calendar_end v))) good ->
  ~ has_row (build_ERA5DateIndex (calendar_end v)) t ->
  run env v
  = (Raise KeyError, mkWorld true (time_axis_events (S (length good)))).
Proof.
  intros Hopen Htime Hgood Ht.
  rewrite (run_time_axis_raises env v ERA5 KeyError Hopen).
  - by rewrite Htime, turns_stop.
  - unfold time_axis, resolve_TimeIndex.
    by rewrite Htime, TimeIndex_loop_stops.
Qed.

Lemma loop_stops_at_first_missing_row_witness :
  run (env_on late_file) ERA5_To_SHETRAN.variant
  = (Raise KeyError, mkWorld true (time_axis_events 2)).
Proof.
  apply (loop_stops_at_first_missing_row (env_on late_file)
           ERA5_To_SHETRAN.variant late_file [876576] 1069441 [876600]).
  - reflexivity.
  - reflexivity.
  - apply Forall_cons; split; [apply has_row_2022; lia|]. apply Forall_nil. exact I.
  - change (build_ERA5DateIndex (calendar_end ERA5_To_SHETRAN.variant))
      with ERA5_To_SHETRAN.ERA5DateIndex.
    rewrite has_row_2022. lia.
Defined.

(** ** The file at the end of a run *)

(** A run ends with the file open exactly when the file was opened and a
    later statement raised: neither script releases the file on the way
    out of a failure. *)
Theorem file_left_open_on_failure (env : Env) (v : Variant) :
  is_open (run env v).2 = true <->
  (exists ERA5,
     env_open env (DirectoryIn v +:+ FileNameIn v +:+ ExtIn) = OK ERA5) /\
  raises (run env v).1.
Proof.
  destruct (run_cases env v) as [(e & Hopen & Hrun) | (ERA5 & k & Hopen & Hrun)];
    rewrite Hrun.
  - cbn [fst snd is_open World0]. split; [discriminate|].
    intros [[ERA5 Hopen'] _]. congruence.
  - unfold outcome.
    destruct (time_axis v ERA5) as [g|e1];
      [destruct (env_NetCDFPlotter env ERA5) as [[]|e2];
       [destruct (env_NetCDFToSHETRAN env ERA5) as [[]|e3]|]|];
      cbn [fst snd is_open raises]; (split; [intros Hopen' | intros [_ Hraise]]);
      try discriminate; try contradiction; try reflexivity;
      (split; [eauto | exact I]).
Qed.

Lemma file_left_open_on_failure_witness :
  is_open (run env_plot_fails ERA5_Land_To_SHETRAN.variant).2 = true /\
  is_open (run env_ok ERA5_Land_To_SHETRAN.variant).2 = false.
Proof.
  split.
  - apply (file_left_open_on_failure env_plot_fails ERA5_Land_To_SHETRAN.variant).
    split; [exists sample_file; reflexivity|].
    destruct sample_run_plot_fails as [k Hrun]. rewrite Hrun. exact I.
  - destruct (is_open (run env_ok ERA5_Land_To_SHETRAN.variant).2) eqn:Hopen;
      [|reflexivity].
    apply (file_left_open_on_failure env_ok ERA5_Land_To_SHETRAN.variant) in Hopen
      as [_ Hraise].
    destruct sample_run_ok as [k Hrun]. rewrite Hrun in Hraise. destruct Hraise.
Defined.

(** * The table of the conversion stage *)














